(** * Research agent system: the coordination core and its stage workers

    A shallow embedding of the Python sources
    [src/agents/*.py], [src/tools/custom_tools.py], [src/tools/web_search.py],
    [src/memory/memory_bank.py], [src/memory/session_manager.py] and
    [src/api/routes.py], followed by the properties the specification states
    about them.

    Conventions of the embedding.
    - Python [str] is [string]; case mapping and white space follow the ASCII
      rules of [str.lower], [str.split], [str.strip] and [str.title].
    - Python [float] is an exact rational [Q]; [round(x, 2)] rounds the exact
      value to hundredths, ties to even, as [round] is documented.  The
      binary representation of floats is not modelled.
    - A Python [dict] with [str] keys is a [gmap string _].
    - [raise] and [except Exception] are the error monad [outcome]; an
      exception is an instance of [Exception].
    - Each coroutine is run from start to end: the interleaving of several
      coroutines at their [await]s is not modelled.
    - Logging, tracing spans, metrics gauges and [asyncio.sleep] have no
      influence on any returned value and are left out. *)

From Stdlib Require Import Ascii QArith Qround Lqa.
From stdpp Require Import gmap strings list fin_maps pretty.

#[local] Set Warnings "-register-all".
#[local] Open Scope string_scope.
#[local] Open Scope list_scope.
#[local] Open Scope Z_scope.

(** ** Python strings *)

Module PyStr.

Definition code (c : ascii) : nat := nat_of_ascii c.

(** [str.isspace] on ASCII: TAB..CR, FS..US and the blank. *)
Definition is_space (c : ascii) : bool :=
  let n := code c in
  ((9 <=? n) && (n <=? 13) || (28 <=? n) && (n <=? 32))%nat.

Definition is_upper (c : ascii) : bool :=
  let n := code c in ((65 <=? n) && (n <=? 90))%nat.

Definition is_lower (c : ascii) : bool :=
  let n := code c in ((97 <=? n) && (n <=? 122))%nat.

Definition is_alpha (c : ascii) : bool := is_upper c || is_lower c.

Definition lower_char (c : ascii) : ascii :=
  if is_upper c then ascii_of_nat (code c + 32) else c.

Definition upper_char (c : ascii) : ascii :=
  if is_lower c then ascii_of_nat (code c - 32) else c.

(** [s.lower()] *)
Fixpoint lower (s : string) : string :=
  match s with
  | EmptyString => EmptyString
  | String c s' => String (lower_char c) (lower s')
  end.

(** [s.title()]: a cased character is upper-cased when it follows an
    uncased one and lower-cased otherwise. *)
Fixpoint title_go (prev_cased : bool) (s : string) : string :=
  match s with
  | EmptyString => EmptyString
  | String c s' =>
      String (if prev_cased then lower_char c else upper_char c)
             (title_go (is_alpha c) s')
  end.

Definition title (s : string) : string := title_go false s.

Definition snoc (s : string) (c : ascii) : string := s +:+ String c EmptyString.

(** [s.split()]: maximal runs of characters that are not white space. *)
Fixpoint split_go (cur : string) (s : string) : list string :=
  match s with
  | EmptyString => if decide (cur = EmptyString) then [] else [cur]
  | String c s' =>
      if is_space c
      then (if decide (cur = EmptyString) then split_go EmptyString s'
            else cur :: split_go EmptyString s')
      else split_go (snoc cur c) s'
  end.

Definition split (s : string) : list string := split_go EmptyString s.

(** [s.lstrip()], [s.rstrip()], [s.strip()] *)
Fixpoint lstrip (s : string) : string :=
  match s with
  | String c s' => if is_space c then lstrip s' else s
  | EmptyString => EmptyString
  end.

Fixpoint rstrip (s : string) : string :=
  match s with
  | EmptyString => EmptyString
  | String c s' =>
      match rstrip s' with
      | EmptyString => if is_space c then EmptyString else String c EmptyString
      | r => String c r
      end
  end.

Definition strip (s : string) : string := rstrip (lstrip s).

(** [s.startswith(p)] *)
Fixpoint startswith (p s : string) : bool :=
  match p, s with
  | EmptyString, _ => true
  | String a p', String b s' => bool_decide (a = b) && startswith p' s'
  | String _ _, EmptyString => false
  end.

(** [sub in s] *)
Fixpoint contains (sub s : string) : bool :=
  startswith sub s ||
  match s with
  | EmptyString => false
  | String _ s' => contains sub s'
  end.

(** [s.split(sep)] for a non-empty [sep]: [skip] counts the characters of
    a separator occurrence that are still to be consumed. *)
Fixpoint split_on_go (sep : string) (skip : nat) (cur : string) (s : string)
  : list string :=
  match s with
  | EmptyString => [cur]
  | String c s' =>
      match skip with
      | S k => split_on_go sep k cur s'
      | O =>
          if startswith sep s
          then cur :: split_on_go sep (String.length sep - 1) EmptyString s'
          else split_on_go sep O (snoc cur c) s'
      end
  end.

Definition split_on (sep s : string) : list string :=
  split_on_go sep O EmptyString s.

(** [sep.join(l)] *)
Fixpoint join (sep : string) (l : list string) : string :=
  match l with
  | [] => EmptyString
  | [x] => x
  | x :: l' => x +:+ sep +:+ join sep l'
  end.

(** [s.replace(old, new)] for a non-empty [old], leftmost occurrences
    first, not overlapping. *)
Fixpoint replace_go (old new : string) (skip : nat) (s : string) : string :=
  match s with
  | EmptyString => EmptyString
  | String c s' =>
      match skip with
      | S k => replace_go old new k s'
      | O =>
          if startswith old s
          then new +:+ replace_go old new (String.length old - 1) s'
          else String c (replace_go old new O s')
      end
  end.

Definition replace (old new s : string) : string := replace_go old new O s.

(** [s[:n]] *)
Fixpoint take (n : nat) (s : string) : string :=
  match n, s with
  | S k, String c s' => String c (take k s')
  | _, _ => EmptyString
  end.

(** [re.split(r'[.!?]+', s)]: the pieces between maximal runs of sentence
    punctuation; a run at either end leaves an empty piece there. *)
Definition is_sentence_end (c : ascii) : bool :=
  let n := code c in ((n =? 46) || (n =? 33) || (n =? 63))%nat.

Fixpoint re_split_go (in_run : bool) (cur : string) (s : string) : list string :=
  match s with
  | EmptyString => [cur]
  | String c s' =>
      if is_sentence_end c
      then (if in_run then re_split_go true cur s'
            else cur :: re_split_go true EmptyString s')
      else re_split_go false (snoc cur c) s'
  end.

Definition re_split_sentences (s : string) : list string :=
  re_split_go false EmptyString s.

Definition newline : string := String (ascii_of_nat 10) EmptyString.
Definition dquote : string := String (ascii_of_nat 34) EmptyString.

End PyStr.

(** ** Python floats as rationals *)

Module PyFloat.
#[local] Open Scope Q_scope.

(** Nearest integer, ties to even. *)
Definition round_half_even (x : Q) : Z :=
  let f := Qfloor x in
  match Qcompare (Qminus x (inject_Z f)) (1 # 2) with
  | Lt => f
  | Gt => (f + 1)%Z
  | Eq => if Z.even f then f else (f + 1)%Z
  end.

(** [round(x, 2)] *)
Definition round2 (x : Q) : Q :=
  Qred (Qmake (round_half_even (Qmult x 100)) 100).

(** [max(0, min(1, x))] *)
Definition clip01 (x : Q) : Q :=
  let m := if Qlt_le_dec x 1 then x else 1 in
  if Qlt_le_dec 0 m then m else 0.

Definition of_nat (n : nat) : Q := inject_Z (Z.of_nat n).

End PyFloat.

(** ** Python values, exceptions and the error monad *)

(** The values that travel between the components: JSON-like data, tuples,
    and [PObject] for an object of any other class (a set, a datetime, a
    [Session]), of which only the class name is kept; such an object has
    none of the [str] methods and no subscript.  Enum members of
    [TaskStatus] and [AgentType] are [str] subclasses and appear as their
    [str] value. *)
Inductive pyval : Type :=
| PNone
| PBool (b : bool)
| PInt (n : Z)
| PFloat (q : Q)
| PStr (s : string)
| PList (l : list pyval)
| PTuple (l : list pyval)
| PDict (d : gmap string pyval)
| PObject (cls : string).

Abbreviation pydict := (gmap string pyval).

(** An exception object: its class and [str(e)]. *)
Record pyexn : Type := PyExn { exn_class : string; exn_str : string }.

Inductive outcome (A : Type) : Type :=
| Return (a : A)
| Raise (e : pyexn).
Arguments Return {A} a.
Arguments Raise {A} e.

Definition obind {A B} (m : outcome A) (f : A -> outcome B) : outcome B :=
  match m with
  | Return a => f a
  | Raise e => Raise e
  end.

Definition type_name (v : pyval) : string :=
  match v with
  | PNone => "NoneType"
  | PBool _ => "bool"
  | PInt _ => "int"
  | PFloat _ => "float"
  | PStr _ => "str"
  | PList _ => "list"
  | PTuple _ => "tuple"
  | PDict _ => "dict"
  | PObject cls => cls
  end.

Definition KeyError (k : string) : pyexn := PyExn "KeyError" ("'" +:+ k +:+ "'").

Definition AttributeError (v : pyval) (attr : string) : pyexn :=
  PyExn "AttributeError"
        ("'" +:+ type_name v +:+ "' object has no attribute '" +:+ attr +:+ "'").

Definition TypeError (msg : string) : pyexn := PyExn "TypeError" msg.

(** [raise Exception(msg)] *)
Definition Exception (msg : string) : pyexn := PyExn "Exception" msg.

(** [d[k]] on a dict *)
Definition dict_getitem (d : pydict) (k : string) : outcome pyval :=
  match d !! k with
  | Some v => Return v
  | None => Raise (KeyError k)
  end.

(** [v[k]] with a [str] subscript on any value (messages as in CPython 3.11) *)
Definition getitem (v : pyval) (k : string) : outcome pyval :=
  match v with
  | PDict d => dict_getitem d k
  | PStr _ => Raise (TypeError "string indices must be integers, not 'str'")
  | PList _ => Raise (TypeError "list indices must be integers or slices, not str")
  | PTuple _ => Raise (TypeError "tuple indices must be integers or slices, not str")
  | _ => Raise (TypeError ("'" +:+ type_name v +:+ "' object is not subscriptable"))
  end.

(** [d.get(k, dflt)] *)
Definition dict_get (d : pydict) (k : string) (dflt : pyval) : pyval :=
  default dflt (d !! k).

(** [d.get("status") == "completed"] (a [TaskStatus] member compares equal
    to its [str] value). *)
Definition status_is_completed (d : pydict) : bool :=
  match d !! "status" with
  | Some (PStr s) => bool_decide (s = "completed")
  | _ => false
  end.

(** ** The outside world

    What the process reads from its environment: the Redis server the memory
    banks talk to, the event-loop clock, [time.time()], the wall clock as an
    ISO string and the next [uuid4()]. *)

(** A JSON document, as [json.dumps] writes it and [json.loads] reads it. *)
Inductive json : Type :=
| JNull
| JBool (b : bool)
| JInt (n : Z)
| JFloat (q : Q)
| JStr (s : string)
| JArr (l : list json)
| JObj (d : gmap string json).

Record World : Type := mkWorld {
  redis_up : bool;
  redis_kv : gmap string json;
  loop_time : Q;
  wall_time : Q;
  now_iso : string;
  uuid4 : string
}.

(** [json.dumps(v)]: tuples become arrays; an object of any other class is
    rejected ([TypeError: Object of type ... is not JSON serializable]). *)
Fixpoint dumps (v : pyval) : option json :=
  match v with
  | PNone => Some JNull
  | PBool b => Some (JBool b)
  | PInt n => Some (JInt n)
  | PFloat q => Some (JFloat q)
  | PStr s => Some (JStr s)
  | PList l | PTuple l => JArr <$> mapM dumps l
  | PDict d =>
      let d' := omap dumps d in
      if decide (size d' = size d) then Some (JObj d') else None
  | PObject _ => None
  end.

(** [json.loads(j)] *)
Fixpoint loads (j : json) : pyval :=
  match j with
  | JNull => PNone
  | JBool b => PBool b
  | JInt n => PInt n
  | JFloat q => PFloat q
  | JStr s => PStr s
  | JArr l => PList (loads <$> l)
  | JObj d => PDict (loads <$> d)
  end.

(** ** src/memory/memory_bank.py *)

Module MemoryBank.

(** [redis_client] is [true] once [initialize] has reached the server;
    [fallback_storage] is the in-process dict.  The one-hour expiry that
    [setex] sets on a Redis key is not modelled. *)
Record t : Type := mk {
  redis_client : bool;
  fallback_storage : pydict
}.

Definition init : t := mk false ∅.

(** [initialize]: without a client, connect and ping; a failed ping leaves
    [redis_client] at [None]. *)
Definition initialize (w : World) (self : t) : t :=
  if redis_client self then self
  else mk (redis_up w) (fallback_storage self).

Definition memory_key (key : string) : string := "memory:" +:+ key.

(** [metadata or {}] *)
Definition metadata_or_empty (metadata : option pydict) : pydict :=
  default ∅ metadata.

Definition memory_data (w : World) (data : pyval) (metadata : option pydict)
  : pydict :=
  <["data" := data]>
    (<["metadata" := PDict (metadata_or_empty metadata)]>
       (<["timestamp" := PFloat (loop_time w)]> ∅)).

(** [store_memory]: every exception of the [try] block (an unserializable
    payload, a lost connection) is logged and swallowed. *)
Definition store_memory (key : string) (data : pyval)
    (metadata : option pydict) (w : World) (self : t) : World * t :=
  let self := initialize w self in
  let md := memory_data w data metadata in
  if redis_client self then
    match dumps (PDict md) with
    | Some doc =>
        if redis_up w
        then (mkWorld (redis_up w) (<[memory_key key := doc]> (redis_kv w))
                      (loop_time w) (wall_time w) (now_iso w) (uuid4 w), self)
        else (w, self)
    | None => (w, self)
    end
  else
    (w, mk (redis_client self)
           (<[memory_key key := PDict md]> (fallback_storage self))).

(** [retrieve_memory] *)
Definition retrieve_memory (key : string) (w : World) (self : t)
  : option pyval * t :=
  let self := initialize w self in
  if redis_client self then
    if redis_up w then
      match redis_kv w !! memory_key key with
      | Some doc => (Some (loads doc), self)
      | None => (None, self)
      end
    else (None, self)
  else
    (fallback_storage self !! memory_key key, self).

(** [get_memory_stats()["total_memories"]] *)
Definition total_memories (w : World) (self : t) : nat * t :=
  let self := initialize w self in
  if redis_client self then
    if redis_up w
    then (size (filter (fun kv => PyStr.startswith "memory:" kv.1) (redis_kv w)), self)
    else (O, self)
  else (size (fallback_storage self), self).

(** [value.get('timestamp', 0)] of a stored entry as a number; [None]
    when the entry is not a dict or its timestamp is not a number, so that
    the comparison in [clear_old_memories] would raise. *)
Definition timestamp_of (value : pyval) : option Q :=
  match value with
  | PDict d =>
      match d !! "timestamp" with
      | None => Some 0%Q
      | Some (PFloat q) => Some q
      | Some (PInt n) => Some (inject_Z n)
      | Some (PBool b) => Some (if b then 1%Q else 0%Q)
      | Some _ => None
      end
  | _ => None
  end.

(** [current_time - value.get('timestamp', 0) > older_than_seconds] *)
Definition is_old (current_time : Q) (older_than_seconds : Z) (value : pyval) : bool :=
  match timestamp_of value with
  | Some ts =>
      if Qlt_le_dec (inject_Z older_than_seconds) (current_time - ts) then true
      else false
  | None => false
  end.

(** [clear_old_memories]: with a Redis client nothing is done; otherwise
    the keys of the old entries are collected and deleted one by one.
    [None] stands for the exception of the comprehension when some entry
    has no numeric timestamp. *)
Definition clear_old_memories (older_than_seconds : Z) (w : World) (self : t)
  : option t :=
  let self := initialize w self in
  if redis_client self then Some self
  else if decide (map_Forall (fun _ value => is_Some (timestamp_of value))
                             (fallback_storage self)) then
    let keys_to_remove :=
      (map_to_list
         (filter (fun kv => Is_true (is_old (loop_time w) older_than_seconds kv.2))
                 (fallback_storage self))).*1 in
    Some (mk (redis_client self)
             (foldl (fun storage key => delete key storage) (fallback_storage self)
                    keys_to_remove))
  else None.

End MemoryBank.

(** [str(v)] of a value inside an f-string.  A [str] formats as itself; the
    rendering of every other value is left to the instance. *)
Class PyRepr : Type := py_repr : pyval -> string.

Definition format `{PyRepr} (v : pyval) : string :=
  match v with
  | PStr s => s
  | _ => py_repr v
  end.

(** [v == s] for a [str] literal [s] *)
Definition eq_str (v : pyval) (s : string) : bool :=
  match v with
  | PStr s' => bool_decide (s' = s)
  | _ => false
  end.

(** ** src/tools/custom_tools.py *)

Module SentimentAnalyzerTool.

Definition positive_words : gset string :=
  list_to_set ["good"; "excellent"; "great"; "amazing"; "positive";
               "successful"; "beneficial"; "effective"].

Definition negative_words : gset string :=
  list_to_set ["bad"; "poor"; "terrible"; "negative"; "failed"; "problem";
               "issue"; "challenge"].

(** [sum(1 for word in words if word in lexicon)] *)
Definition count_in (lexicon : gset string) (words : list string) : nat :=
  length (filter (fun word => word ∈ lexicon) words).

Definition analyze_sentiment (text : string) : pydict :=
  let words := PyStr.split (PyStr.lower text) in
  let positive_count := count_in positive_words words in
  let negative_count := count_in negative_words words in
  let total_relevant := (positive_count + negative_count)%nat in
  let '(sentiment, score) :=
    if decide (total_relevant = 0%nat) then ("neutral", (1 # 2)%Q)
    else
      let score := (PyFloat.of_nat positive_count / PyFloat.of_nat total_relevant)%Q in
      if Qlt_le_dec (6 # 10) score then ("positive", score)
      else if Qlt_le_dec score (4 # 10) then ("negative", score)
      else ("neutral", score) in
  <["sentiment" := PStr sentiment]>
    (<["score" := PFloat (PyFloat.round2 score)]>
       (<["positive_words" := PInt (Z.of_nat positive_count)]>
          (<["negative_words" := PInt (Z.of_nat negative_count)]>
             (<["total_words_analyzed" := PInt (Z.of_nat (length words))]> ∅)))).

End SentimentAnalyzerTool.

Module DataAnalysisTool.

Definition calculate_readability (text : string) : Q :=
  let words := PyStr.split text in
  match words with
  | [] => 0%Q
  | _ =>
      let sentences := PyStr.re_split_sentences text in
      let words_per_sentence :=
        (PyFloat.of_nat (length words)
         / PyFloat.of_nat (Nat.max (length sentences) 1))%Q in
      let complex_words :=
        filter (fun word => (6 < String.length word)%nat) words in
      let complexity_ratio :=
        (PyFloat.of_nat (length complex_words)
         / PyFloat.of_nat (Nat.max (length words) 1))%Q in
      let readability :=
        PyFloat.clip01
          (1 - complexity_ratio + (30 / words_per_sentence) / 100)%Q in
      PyFloat.round2 readability
  end.

(** The type [_identify_content_types] gives to one item. *)
Definition content_type_of_item (item : gmap string string) : string :=
  let snippet := PyStr.lower (default EmptyString (item !! "snippet")) in
  if existsb (fun word => PyStr.contains word snippet) ["research"; "study"; "data"]
  then "research"
  else if existsb (fun word => PyStr.contains word snippet) ["news"; "update"; "recent"]
  then "news"
  else "general".

(** [_identify_content_types]: [list(set(types))] comes in no specified
    order and is kept as the set. *)
Definition _identify_content_types (content : list (gmap string string)) : gset string :=
  list_to_set (content_type_of_item <$> content).

(** The mapping [analyze_content] returns, field by field. *)
Record analysis : Type := mk_analysis {
  total_items : nat;
  total_word_count : nat;
  average_words_per_item : Q;
  content_types : gset string;
  quality_score : Q
}.

(** [min(x, 1.0)] *)
Definition min_one (x : Q) : Q := if Qlt_le_dec 1 x then 1%Q else x.

Definition analyze_content (content : list (gmap string string)) : analysis :=
  let total_items := length content in
  let word_count :=
    foldr Nat.add 0%nat
      ((fun item => length (PyStr.split (default EmptyString (item !! "snippet"))))
         <$> content) in
  mk_analysis total_items word_count
    (PyFloat.of_nat word_count / PyFloat.of_nat (Nat.max total_items 1))%Q
    (_identify_content_types content)
    (min_one (PyFloat.of_nat word_count / 100)%Q).

End DataAnalysisTool.

Module ContentOptimizerTool.

Definition _get_optimization_rules (content_type tone : pyval) : list string :=
  (if eq_str content_type "article" then ["structure_paragraphs"; "add_headings"]
   else if eq_str content_type "report" then ["formal_language"; "add_bullet_points"]
   else [])
  ++
  (if eq_str tone "professional" then ["professional_tone"]
   else if eq_str tone "casual" then ["casual_tone"]
   else []).

Definition paragraph_break : string := PyStr.newline +:+ PyStr.newline.

Definition _apply_optimization_rule (content rule : string) : string :=
  if decide (rule = "structure_paragraphs") then
    let paragraphs := PyStr.split_on paragraph_break content in
    PyStr.join paragraph_break
      (PyStr.strip <$>
         filter (fun p => PyStr.strip p ≠ EmptyString) paragraphs)
  else if decide (rule = "professional_tone") then
    let content := PyStr.replace " kinda " " kind of " content in
    let content := PyStr.replace " gonna " " going to " content in
    let content := PyStr.replace " yeah " " yes " content in
    content
  else content.

Definition optimize_content (content : string) (content_type tone : pyval)
  : string :=
  let optimization_rules := _get_optimization_rules content_type tone in
  foldl _apply_optimization_rule content optimization_rules.

End ContentOptimizerTool.

(** ** src/tools/web_search.py *)

Module WebSearchTool.

(** One entry of [_get_simulated_results], for loop index [i]. *)
Definition simulated_result `{PyRepr} (query : pyval) (i : nat) : gmap string string :=
  <["title" := "Research Result " +:+ pretty (i + 1)%nat +:+ " for: " +:+ format query]>
    (<["snippet" := "This is a simulated search result for " +:+ PyStr.dquote
                    +:+ format query +:+ PyStr.dquote
                    +:+ ". In a production environment, this would be real data from search APIs."]>
       (<["url" := "https://example.com/research-" +:+ pretty (i + 1)%nat]>
          (<["display_url" := "research.example.com"]> ∅))).

Definition _get_simulated_results `{PyRepr} (query : pyval) (max_results : nat)
  : list (gmap string string) :=
  simulated_result query <$> seq 0 max_results.

(** [search_async]: nothing in the [try] block raises, so the simulated
    results are what it returns. *)
Definition search_async `{PyRepr} (query : pyval) (max_results : nat)
  : list (gmap string string) :=
  _get_simulated_results query max_results.

End WebSearchTool.

(** ** src/models/schemas.py *)

Inductive AgentType : Type := RESEARCH | WRITING | ANALYSIS | COORDINATOR.

Definition AgentType_value (a : AgentType) : string :=
  match a with
  | RESEARCH => "research"
  | WRITING => "writing"
  | ANALYSIS => "analysis"
  | COORDINATOR => "coordinator"
  end.

Inductive TaskStatus : Type := PENDING | IN_PROGRESS | COMPLETED | FAILED.

Definition TaskStatus_value (s : TaskStatus) : string :=
  match s with
  | PENDING => "pending"
  | IN_PROGRESS => "in_progress"
  | COMPLETED => "completed"
  | FAILED => "failed"
  end.

(** A status member stored in a dict. *)
Definition status_val (s : TaskStatus) : pyval := PStr (TaskStatus_value s).

Module AgentMessage.

Record t : Type := mk {
  sender : AgentType;
  receiver : AgentType;
  content : pydict;
  message_type : string;
  timestamp : Q
}.

End AgentMessage.

(** The answer of every agent to a message type it does not know. *)
Definition unknown_message_type : pydict :=
  <["status" := PStr "error"]> (<["reason" := PStr "unknown_message_type"]> ∅).

(** [ResearchResult(...).dict()].  The model validates [task_id] as a
    [str] (pydantic 2); the text of its error is abridged. *)
Definition ResearchResult_dict (task_id : pyval) (content : string)
    (sources key_findings : list string) (confidence_score : Q) : outcome pydict :=
  match task_id with
  | PStr _ =>
      Return (<["task_id" := task_id]>
                (<["content" := PStr content]>
                   (<["sources" := PList (PStr <$> sources)]>
                      (<["key_findings" := PList (PStr <$> key_findings)]>
                         (<["confidence_score" := PFloat confidence_score]>
                            (<["metadata" := PDict ∅]> ∅))))))
  | _ => Raise (PyExn "ValidationError" "1 validation error for ResearchResult")
  end.

(** ** src/agents/base_agent.py *)

(** The generative model of an agent for one call: [None] when no API key is
    configured, otherwise what [self.model.generate_content(prompt).text]
    does, a text or an exception.  The prompt is not modelled: the results
    below hold whatever the model answers. *)
Definition Generation : Type := option (outcome string).

(** [BaseAgent]: what the coordinator needs of an agent. *)
Class Agent (A : Type) : Type := {
  agent_type : A -> AgentType;
  execute_task : pydict -> World -> A -> outcome pydict * World * A
}.

Definition unlines (l : list string) : string := PyStr.join PyStr.newline l.

(** ** src/agents/research_agent.py *)

Module ResearchAgent.

Record t : Type := mk {
  web_search : pyval -> nat -> list (gmap string string);
  model : Generation;
  memory_bank : MemoryBank.t
}.

(** [[result["url"] for result in search_results if "url" in result]] *)
Definition result_urls (search_results : list (gmap string string)) : list string :=
  (fun result => default EmptyString (result !! "url"))
    <$> filter (fun result => is_Some (result !! "url")) search_results.

Definition _generate_fallback_research `{PyRepr} (topic : pyval)
    (search_results : list (gmap string string)) : string :=
  let urls := PyStr.join ", " (result_urls search_results) in
  unlines [
    EmptyString;
    "        # Research Report: " +:+ format topic;
    "        ";
    "        ## Overview";
    "        Comprehensive analysis of " +:+ format topic +:+ " based on available data sources.";
    "        ";
    "        ## Key Findings";
    "        - Significant developments in " +:+ format topic +:+ " field";
    "        - Growing market adoption and investment";
    "        - Technological advancements driving innovation";
    "        - Regulatory landscape evolving";
    "        ";
    "        ## Analysis";
    "        Based on " +:+ pretty (length search_results) +:+ " sources, " +:+ format topic +:+ " demonstrates strong potential ";
    "        for continued growth and innovation across multiple sectors.";
    "        ";
    "        ## Sources";
    "        " +:+ urls;
    "        "
  ].

Definition markers : list string :=
  ["key finding"; "important"; "significant"; "major"].

Definition _extract_key_findings (content : string) : list string :=
  let lines := PyStr.split_on PyStr.newline content in
  let findings :=
    PyStr.strip <$>
      filter (fun line =>
                Is_true (existsb (fun marker => PyStr.contains marker (PyStr.lower line))
                                 markers)) lines in
  match findings with
  | [] => ["Analysis completed successfully"]
  | _ => take 5 findings
  end.

Definition execute_research `{PyRepr} (research_data : pydict) (w : World) (self : t)
  : outcome pydict * World * t :=
  let topic := dict_get research_data "topic" (PStr EmptyString) in
  let depth := dict_get research_data "depth" (PStr "comprehensive") in
  let search_results := web_search self topic 5%nat in
  let '(research_content, confidence_score) :=
    match model self with
    | Some (Return text) => (text, (85 # 100)%Q)
    | Some (Raise _) | None =>
        (_generate_fallback_research topic search_results, (70 # 100)%Q)
    end in
  match ResearchResult_dict
          (dict_get research_data "task_id" (PStr EmptyString))
          research_content
          (result_urls search_results)
          (_extract_key_findings research_content)
          (Qred confidence_score) with
  | Raise e => (Raise e, w, self)
  | Return result =>
      let '(w, bank) :=
        MemoryBank.store_memory ("research_" +:+ format topic) (PDict result)
          (Some (<["depth" := depth]> (<["topic" := topic]> ∅)))
          w (memory_bank self) in
      (Return (<["status" := PStr "completed"]>
                 (<["result" := PDict result]>
                    (<["agent" := PStr (AgentType_value RESEARCH)]> ∅))),
       w, mk (web_search self) (model self) bank)
  end.

Definition process_message `{PyRepr} (message : AgentMessage.t) (w : World) (self : t)
  : outcome pydict * World * t :=
  if decide (AgentMessage.message_type message = "research_request")
  then execute_research (AgentMessage.content message) w self
  else (Return unknown_message_type, w, self).

End ResearchAgent.

(** ** src/agents/writing_agent.py *)

Module WritingAgent.

Record t : Type := mk {
  model : Generation;
  memory_bank : MemoryBank.t
}.

(** [research_content[:500]] inside the f-string *)
Definition excerpt_500 `{PyRepr} (research_content : pyval) : outcome string :=
  match research_content with
  | PStr s => Return (PyStr.take 500 s)
  | PList l => Return (py_repr (PList (take 500 l)))
  | PTuple l => Return (py_repr (PTuple (take 500 l)))
  | PDict _ => Raise (TypeError "unhashable type: 'slice'")
  | v => Raise (TypeError ("'" +:+ type_name v +:+ "' object is not subscriptable"))
  end.

Definition _generate_fallback_content `{PyRepr} (research_content content_type tone : pyval)
  : outcome string :=
  match content_type with
  | PStr content_type =>
      obind (excerpt_500 research_content) (fun excerpt =>
      Return (unlines [
    EmptyString;
    "        # " +:+ PyStr.title content_type +:+ " on Research Topic";
    "        ";
    "        ## Executive Summary";
    "        This " +:+ content_type +:+ " synthesizes key research findings in a " +:+ format tone +:+ " tone.";
    "        ";
    "        ## Main Content";
    "        Based on comprehensive research analysis, this content presents the most significant ";
    "        insights and recommendations for stakeholders.";
    "        ";
    "        ## Key Insights from Research";
    "        " +:+ excerpt +:+ "...";
    "        ";
    "        ## Conclusion";
    "        The research demonstrates important implications that warrant further consideration ";
    "        and strategic planning.";
    "        "
      ]))
  | v => Raise (AttributeError v "title")
  end.

Definition generate_content `{PyRepr} (content_data : pydict) (w : World) (self : t)
  : outcome pydict * World * t :=
  let research_content := dict_get content_data "research_content" (PStr EmptyString) in
  let content_type := dict_get content_data "content_type" (PStr "article") in
  let tone := dict_get content_data "tone" (PStr "professional") in
  let length := dict_get content_data "length" (PStr "medium") in
  let draft :=
    match model self with
    | Some (Return text) => Return text
    | Some (Raise _) | None =>
        _generate_fallback_content research_content content_type tone
    end in
  match draft with
  | Raise e => (Raise e, w, self)
  | Return draft_content =>
      let optimized_content :=
        ContentOptimizerTool.optimize_content draft_content content_type tone in
      let '(w, bank) :=
        MemoryBank.store_memory ("content_" +:+ format content_type)
          (PStr optimized_content)
          (Some (<["content_type" := content_type]>
                   (<["tone" := tone]> (<["length" := length]> ∅))))
          w (memory_bank self) in
      (Return (<["status" := PStr "completed"]>
                 (<["content" := PStr optimized_content]>
                    (<["content_type" := content_type]>
                       (<["agent" := PStr (AgentType_value WRITING)]> ∅)))),
       w, mk (model self) bank)
  end.

Definition process_message `{PyRepr} (message : AgentMessage.t) (w : World) (self : t)
  : outcome pydict * World * t :=
  if decide (AgentMessage.message_type message = "content_request")
  then generate_content (AgentMessage.content message) w self
  else (Return unknown_message_type, w, self).

End WritingAgent.

(** ** src/agents/analysis_agent.py *)

Module AnalysisAgent.

Record t : Type := mk {
  model : Generation;
  memory_bank : MemoryBank.t
}.

Definition _generate_fallback_analysis : string :=
  unlines [
    EmptyString;
    "        Quality Assessment: Content appears well-structured and informative";
    "        Key Insights: Comprehensive coverage of relevant topics";
    "        Recommendations: Consider adding more specific examples and data points";
    "        Confidence Score: 0.75";
    "        "
  ].

Definition topic_keywords : list (string * list string) :=
  [("technology", ["ai"; "artificial"; "intelligence"; "machine"; "learning"; "algorithm"]);
   ("business", ["market"; "investment"; "revenue"; "profit"; "strategy"]);
   ("health", ["medical"; "healthcare"; "treatment"; "patient"; "clinical"]);
   ("education", ["learning"; "teaching"; "student"; "curriculum"; "knowledge"])].

Definition _extract_topics (content : string) : list string :=
  let words := PyStr.split (PyStr.lower content) in
  let topics :=
    fst <$> filter (fun tk => Exists (fun keyword => keyword ∈ words) tk.2)
                   topic_keywords in
  match topics with
  | [] => ["general"]
  | _ => topics
  end.

Definition analyze_content `{PyRepr} (analysis_data : pydict) (w : World) (self : t)
  : outcome pydict * World * t :=
  let content := dict_get analysis_data "content" (PStr EmptyString) in
  let analysis_type := dict_get analysis_data "analysis_type" (PStr "comprehensive") in
  let analysis_result :=
    match model self with
    | Some (Return text) => text
    | Some (Raise _) | None => _generate_fallback_analysis
    end in
  match content with
  | PStr text =>
      let sentiment := SentimentAnalyzerTool.analyze_sentiment text in
      let readability_score := DataAnalysisTool.calculate_readability text in
      let analysis_report : pydict :=
        <["analysis" := PStr analysis_result]>
          (<["sentiment" := PDict sentiment]>
             (<["readability_score" := PFloat readability_score]>
                (<["content_length" := PInt (Z.of_nat (String.length text))]>
                   (<["key_topics" := PList (PStr <$> _extract_topics text)]> ∅)))) in
      let '(w, bank) :=
        MemoryBank.store_memory ("analysis_" +:+ format analysis_type)
          (PDict analysis_report)
          (Some (<["analysis_type" := analysis_type]> ∅))
          w (memory_bank self) in
      (Return (<["status" := PStr "completed"]>
                 (<["analysis_report" := PDict analysis_report]>
                    (<["agent" := PStr (AgentType_value ANALYSIS)]> ∅))),
       w, mk (model self) bank)
  | v => (Raise (AttributeError v "lower"), w, self)
  end.

Definition process_message `{PyRepr} (message : AgentMessage.t) (w : World) (self : t)
  : outcome pydict * World * t :=
  if decide (AgentMessage.message_type message = "analysis_request")
  then analyze_content (AgentMessage.content message) w self
  else (Return unknown_message_type, w, self).

End AnalysisAgent.

#[export] Instance ResearchAgent_Agent `{PyRepr} : Agent ResearchAgent.t :=
  {| agent_type := fun _ => RESEARCH; execute_task := ResearchAgent.execute_research |}.

#[export] Instance WritingAgent_Agent `{PyRepr} : Agent WritingAgent.t :=
  {| agent_type := fun _ => WRITING; execute_task := WritingAgent.generate_content |}.

#[export] Instance AnalysisAgent_Agent `{PyRepr} : Agent AnalysisAgent.t :=
  {| agent_type := fun _ => ANALYSIS; execute_task := AnalysisAgent.analyze_content |}.

(** ** src/memory/session_manager.py *)

Module Session.

Record t : Type := mk {
  session_id : string;
  created_at : Q;
  updated_at : Q;
  state : pydict;
  history : list pydict;
  context : pydict
}.

(** [Session(session_id)] *)
Definition new (w : World) (session_id : string) : t :=
  mk session_id (wall_time w) (wall_time w) ∅ [] ∅.

Definition update_state (key : string) (value : pyval) (w : World) (self : t) : t :=
  mk (session_id self) (created_at self) (wall_time w)
     (<[key := value]> (state self))
     (history self ++
        [<["timestamp" := PFloat (wall_time w)]>
           (<["action" := PStr "state_update"]>
              (<["key" := PStr key]> (<["value" := value]> ∅)))])
     (context self).

Definition get_state (key : string) (self : t) : option pyval := state self !! key.

Definition update_context (context_data : pydict) (w : World) (self : t) : t :=
  mk (session_id self) (created_at self) (wall_time w) (state self) (history self)
     (context_data ∪ context self).

Definition get_context (self : t) : pydict := context self.

Definition add_to_history (event : string) (data : pyval) (w : World) (self : t) : t :=
  mk (session_id self) (created_at self) (wall_time w) (state self)
     (history self ++
        [<["timestamp" := PFloat (wall_time w)]>
           (<["event" := PStr event]> (<["data" := data]> ∅))])
     (context self).

Definition get_full_history (self : t) : list pydict := history self.

End Session.

Module SessionManager.

Record t : Type := mk { sessions : gmap string Session.t }.

Definition init : t := mk ∅.

(** [create_session]: an empty id is replaced by a fresh uuid; the new
    session replaces any session registered under the same id.  Returns
    the id under which the session object is registered. *)
Definition create_session (session_id : string) (w : World) (self : t)
  : string * t :=
  let session_id :=
    if decide (session_id = EmptyString) then uuid4 w else session_id in
  (session_id, mk (<[session_id := Session.new w session_id]> (sessions self))).

Definition get_session (session_id : string) (self : t) : option Session.t :=
  sessions self !! session_id.

(** A method call on the session object registered under [session_id]. *)
Definition on_session (session_id : string) (f : Session.t -> Session.t) (self : t) : t :=
  mk (alter f session_id (sessions self)).

(** [end_session] *)
Definition end_session (session_id : string) (self : t) : t :=
  match sessions self !! session_id with
  | Some _ => mk (delete session_id (sessions self))
  | None => self
  end.

(** [current_time - session.updated_at > max_age_seconds] *)
Definition is_expired (current_time : Q) (max_age_seconds : Z) (session : Session.t)
  : bool :=
  if Qlt_le_dec (inject_Z max_age_seconds) (current_time - Session.updated_at session)
  then true else false.

(** [cleanup_old_sessions]: the ids of the expired sessions are collected,
    then each is ended. *)
Definition cleanup_old_sessions (max_age_seconds : Z) (w : World) (self : t) : t :=
  let expired_sessions :=
    (map_to_list
       (filter (fun kv => Is_true (is_expired (wall_time w) max_age_seconds kv.2))
               (sessions self))).*1 in
  foldl (fun self session_id => end_session session_id self) self expired_sessions.

End SessionManager.

(** ** src/agents/coordinator_agent.py *)

Section Coordinator.

Context {RA WA AA : Type} `{!Agent RA, !Agent WA, !Agent AA}.

Record CoordinatorAgent : Type := mkCoordinator {
  research_agent : RA;
  writing_agent : WA;
  analysis_agent : AA;
  session_manager : SessionManager.t;
  active_tasks : gmap string pydict
}.

(** The state a coordination threads through its [await]s, with the list
    of stage calls made so far (each with the mapping it was given). *)
Record Ctx : Type := mkCtx {
  cx_world : World;
  cx_self : CoordinatorAgent;
  cx_calls : list (AgentType * pydict)
}.

(** The body of the [try] block: state and exceptions. *)
Definition Try (X : Type) : Type := Ctx -> outcome X * Ctx.

Definition ret {X} (x : X) : Try X := fun cx => (Return x, cx).

Definition raise {X} (e : pyexn) : Try X := fun cx => (Raise e, cx).

Definition bind {X Y} (m : Try X) (f : X -> Try Y) : Try Y :=
  fun cx =>
    match m cx with
    | (Return x, cx') => f x cx'
    | (Raise e, cx') => (Raise e, cx')
    end.

Definition lift {X} (o : outcome X) : Try X := fun cx => (o, cx).

Definition with_agents (self : CoordinatorAgent) (r : RA) (wa : WA) (a : AA)
  : CoordinatorAgent :=
  mkCoordinator r wa a (session_manager self) (active_tasks self).

(** [await self.research_agent.execute_task(input)] *)
Definition call_research (input : pydict) : Try pydict :=
  fun cx =>
    let self := cx_self cx in
    let '(o, w, r) := execute_task input (cx_world cx) (research_agent self) in
    (o, mkCtx w (with_agents self r (writing_agent self) (analysis_agent self))
              (cx_calls cx ++ [(RESEARCH, input)])).

(** [await self.writing_agent.execute_task(input)] *)
Definition call_writing (input : pydict) : Try pydict :=
  fun cx =>
    let self := cx_self cx in
    let '(o, w, wa) := execute_task input (cx_world cx) (writing_agent self) in
    (o, mkCtx w (with_agents self (research_agent self) wa (analysis_agent self))
              (cx_calls cx ++ [(WRITING, input)])).

(** [await self.analysis_agent.execute_task(input)] *)
Definition call_analysis (input : pydict) : Try pydict :=
  fun cx =>
    let self := cx_self cx in
    let '(o, w, a) := execute_task input (cx_world cx) (analysis_agent self) in
    (o, mkCtx w (with_agents self (research_agent self) (writing_agent self) a)
              (cx_calls cx ++ [(ANALYSIS, input)])).

(** [if result.get("status") != "completed": raise Exception(msg)] *)
Definition check_completed (result : pydict) (msg : string) : Try unit :=
  if status_is_completed result then ret tt else raise (Exception msg).

(** [self.active_tasks[task_id]["status"] = status] *)
Definition set_status (task_id : string) (status : TaskStatus)
    (self : CoordinatorAgent) : CoordinatorAgent :=
  mkCoordinator (research_agent self) (writing_agent self) (analysis_agent self)
    (session_manager self)
    (alter (insert "status" (status_val status)) task_id (active_tasks self)).

(** [await session.update_state(key, value)] on the session registered
    under [sid]. *)
Definition session_update (sid key : string) (value : pyval) (w : World)
    (self : CoordinatorAgent) : CoordinatorAgent :=
  mkCoordinator (research_agent self) (writing_agent self) (analysis_agent self)
    (SessionManager.on_session sid (Session.update_state key value w)
       (session_manager self))
    (active_tasks self).

(** The task data are the mappings the repository builds:
    [create_research_task] fills them from a validated request and a uuid,
    the tests with literals, in both cases with [str] values only.  A
    mapping holding a value of another type (a [task_id] that is a
    number, a [content_type] that is [None]) is outside this embedding of
    the coordinator; the stages are embedded for every value they may be
    given. *)
Definition task_id_of (self : CoordinatorAgent) (task_data : gmap string string)
  : string :=
  default ("task_" +:+ pretty (size (active_tasks self))) (task_data !! "task_id").

(** Lines 31-42: the session is created and the task recorded as in
    progress.  Returns the id of the session with the new state. *)
Definition begin_task (task_data : gmap string string) (w : World)
    (self : CoordinatorAgent) : string * CoordinatorAgent :=
  let task_id := task_id_of self task_data in
  let '(sid, sm) := SessionManager.create_session task_id w (session_manager self) in
  (sid,
   mkCoordinator (research_agent self) (writing_agent self) (analysis_agent self) sm
     (<[task_id :=
          <["status" := status_val IN_PROGRESS]>
            (<["current_step" := PStr "research"]>
               (<["session" := PObject "Session"]> ∅))]>
        (active_tasks self))).

(** The mappings handed to the three stages. *)
Definition research_input (task_id topic : string) : pydict :=
  <["task_id" := PStr task_id]>
    (<["topic" := PStr topic]>
       (<["depth" := PStr "comprehensive"]> ∅)).

Definition writing_input (research_content : pyval) (content_type : string)
    (task_data : gmap string string) : pydict :=
  <["research_content" := research_content]>
    (<["content_type" := PStr content_type]>
       (<["tone" := PStr (default "professional" (task_data !! "tone"))]> ∅)).

Definition analysis_input (content : pyval) : pydict :=
  <["content" := content]> (<["analysis_type" := PStr "quality"]> ∅).

Definition final_result (task_id : string) (research content analysis : pyval)
  : pydict :=
  <["task_id" := PStr task_id]>
    (<["status" := status_val COMPLETED]>
       (<["research" := research]>
          (<["content" := content]>
             (<["analysis" := analysis]>
                (<["timeline" :=
                     PDict (<["research_completed" := PBool true]>
                              (<["writing_completed" := PBool true]>
                                 (<["analysis_completed" := PBool true]> ∅)))]>
                   ∅))))).

(** The outcome returned by the [except] handler. *)
Definition failed_result (task_id error : string) : pydict :=
  <["task_id" := PStr task_id]>
    (<["status" := status_val FAILED]>
       (<["error" := PStr error]> ∅)).

(** Step 1 (lines 48-60): the research call, its status check, and the
    two subscripts that fetch the research payload and its content. *)
Definition research_step (task_id topic : string) : Try (pyval * pyval) :=
  bind (call_research (research_input task_id topic)) (fun research_result =>
  bind (check_completed research_result "Research phase failed") (fun _ =>
  bind (lift (dict_getitem research_result "result")) (fun research =>
  bind (lift (getitem research "content")) (fun research_content =>
  ret (research, research_content))))).

(** Step 2 (lines 59-70) *)
Definition writing_step (research_content : pyval) (content_type : string)
    (task_data : gmap string string) : Try pyval :=
  bind (call_writing (writing_input research_content content_type task_data))
       (fun writing_result =>
  bind (check_completed writing_result "Writing phase failed") (fun _ =>
  lift (dict_getitem writing_result "content"))).

(** Step 3 (lines 69-79) *)
Definition analysis_step (content : pyval) : Try pyval :=
  bind (call_analysis (analysis_input content)) (fun analysis_result =>
  lift (dict_getitem analysis_result "analysis_report")).

(** Lines 48-85: the three steps and the assembly of the final result. *)
Definition pipeline (task_id topic content_type : string) (task_data : gmap string string)
  : Try pydict :=
  bind (research_step task_id topic) (fun '(research, research_content) =>
  bind (writing_step research_content content_type task_data) (fun content =>
  bind (analysis_step content) (fun analysis =>
  ret (final_result task_id research content analysis)))).

(** Lines 87-102: the terminal status is written, mirrored into the
    session, and the outcome returned; [except Exception as e] turns an
    exception into a failed outcome carrying [str(e)]. *)
Definition finish_task (task_id sid : string) (r : outcome pydict * Ctx)
  : pydict * Ctx :=
  let '(o, cx) := r in
  let w := cx_world cx in
  match o with
  | Return final =>
      (final,
       mkCtx w (session_update sid "completed" (PDict final) w
                  (set_status task_id COMPLETED (cx_self cx)))
             (cx_calls cx))
  | Raise e =>
      (failed_result task_id (exn_str e),
       mkCtx w (session_update sid "failed"
                  (PDict (<["error" := PStr (exn_str e)]> ∅)) w
                  (set_status task_id FAILED (cx_self cx)))
             (cx_calls cx))
  end.

Definition topic_of (task_data : gmap string string) : string :=
  default EmptyString (task_data !! "topic").

Definition content_type_of (task_data : gmap string string) : string :=
  default "article" (task_data !! "content_type").

(** The state in which the [try] block is entered. *)
Definition start_ctx (task_data : gmap string string) (w : World)
    (self : CoordinatorAgent) : Ctx :=
  mkCtx w (begin_task task_data w self).2 [].

Definition coordinate_task (task_data : gmap string string) (w : World)
    (self : CoordinatorAgent) : pydict * Ctx :=
  let task_id := task_id_of self task_data in
  let sid := (begin_task task_data w self).1 in
  finish_task task_id sid
    (pipeline task_id (topic_of task_data) (content_type_of task_data) task_data
       (start_ctx task_data w self)).

(** [handle_task_update]: the update mapping is merged into the record of
    a known task, whatever the record holds. *)
Definition handle_task_update (update_data : pydict) (self : CoordinatorAgent)
  : pydict * CoordinatorAgent :=
  match update_data !! "task_id" with
  | Some (PStr task_id) =>
      match active_tasks self !! task_id with
      | Some record =>
          (<["status" := PStr "updated"]> (<["task_id" := PStr task_id]> ∅),
           mkCoordinator (research_agent self) (writing_agent self)
             (analysis_agent self) (session_manager self)
             (<[task_id := update_data ∪ record]> (active_tasks self)))
      | None =>
          (<["status" := PStr "error"]> (<["reason" := PStr "task_not_found"]> ∅), self)
      end
  | _ => (<["status" := PStr "error"]> (<["reason" := PStr "task_not_found"]> ∅), self)
  end.

(** The status a task record of the coordinator holds. *)
Definition task_status (task_id : string) (self : CoordinatorAgent) : option pyval :=
  active_tasks self !! task_id ≫= fun record => record !! "status".

(** Two states of a coordination with the same task records and the same
    sessions: the coordinator's own books. *)
Definition same_books (cx cx' : Ctx) : Prop :=
  active_tasks (cx_self cx') = active_tasks (cx_self cx)
  /\ session_manager (cx_self cx') = session_manager (cx_self cx).

(** [sum(1 for task in self.active_tasks.values()
         if task.get("status") == status)] *)
Definition count_status (status : TaskStatus) (self : CoordinatorAgent) : nat :=
  size (filter (fun kv =>
                  Is_true (match kv.2 !! "status" with
                           | Some v => eq_str v (TaskStatus_value status)
                           | None => false
                           end))
               (active_tasks self)).

Definition get_system_metrics (self : CoordinatorAgent) : pydict :=
  let completed_tasks := count_status COMPLETED self in
  let failed_tasks := count_status FAILED self in
  <["total_tasks" := PInt (Z.of_nat (size (active_tasks self)))]>
    (<["completed_tasks" := PInt (Z.of_nat completed_tasks)]>
       (<["failed_tasks" := PInt (Z.of_nat failed_tasks)]>
          (<["success_rate" :=
               PFloat (PyFloat.of_nat completed_tasks
                       / PyFloat.of_nat (Nat.max (size (active_tasks self)) 1))%Q]>
             (<["active_sessions" :=
                  PInt (Z.of_nat (size (SessionManager.sessions (session_manager self))))]>
                ∅)))).

End Coordinator.

Arguments CoordinatorAgent RA WA AA : clear implicits.
Arguments Ctx RA WA AA : clear implicits.

(** ** src/api/routes.py *)

Module ResearchRequest.

Record t : Type := mk {
  topic : string;
  content_type : string;
  tone : string;
  length : string;
  depth : string
}.

(** [request.dict()] *)
Definition dict (request : t) : pydict :=
  <["topic" := PStr (topic request)]>
    (<["content_type" := PStr (content_type request)]>
       (<["tone" := PStr (tone request)]>
          (<["length" := PStr (length request)]>
             (<["depth" := PStr (depth request)]> ∅)))).

End ResearchRequest.

Section Routes.

Context {RA WA AA : Type} `{!Agent RA, !Agent WA, !Agent AA}.

(** The module-level objects of the API: the coordinator and the task
    registry [active_tasks]. *)
Record App : Type := mkApp {
  coordinator_agent : CoordinatorAgent RA WA AA;
  registry : gmap string pydict
}.

(** The mapping [create_research_task] hands to the background task. *)
Definition make_task_data (task_id : string) (request : ResearchRequest.t)
  : gmap string string :=
  <["task_id" := task_id]>
    (<["topic" := ResearchRequest.topic request]>
       (<["content_type" := ResearchRequest.content_type request]>
          (<["tone" := ResearchRequest.tone request]>
             (<["length" := ResearchRequest.length request]>
                (<["depth" := ResearchRequest.depth request]> ∅))))).

(** [POST /research]: the record is created as pending and the task id
    and task data are scheduled for [execute_research_task]. *)
Definition create_research_task (request : ResearchRequest.t) (w : World) (app : App)
  : string * gmap string string * App :=
  let task_id := uuid4 w in
  let task_data := make_task_data task_id request in
  (task_id, task_data,
   mkApp (coordinator_agent app)
     (<[task_id :=
          <["status" := PStr "pending"]>
            (<["request" := PDict (ResearchRequest.dict request)]>
               (<["created_at" := PStr (now_iso w)]>
                  (<["result" := PNone]> ∅)))]>
        (registry app))).

(** [GET /tasks/{task_id}] *)
Definition get_task_status (task_id : string) (app : App) : outcome pydict :=
  match registry app !! task_id with
  | Some record => Return record
  | None => Raise (PyExn "HTTPException" "404: Task not found")
  end.

(** [active_tasks[task_id]["status"] = "in_progress"] *)
Definition mark_in_progress (task_id : string) (app : App) : App :=
  mkApp (coordinator_agent app)
    (alter (insert "status" (PStr "in_progress")) task_id (registry app)).

(** [active_tasks[task_id].update({...})] with the coordinator's result *)
Definition record_result (task_id : string) (result : pydict) (w : World)
    (coordinator : CoordinatorAgent RA WA AA) (app : App) : App :=
  mkApp coordinator
    (alter (fun record =>
              <["status" := dict_get result "status" (PStr "completed")]>
                (<["result" := PDict result]>
                   (<["completed_at" := PStr (now_iso w)]> record)))
           task_id (registry app)).

(** [execute_research_task] from start to end, with the state in which it
    is suspended at its [await]: there the status has been set to in
    progress and the coordination has not returned yet, so a request
    served meanwhile ([get_task_status]) reads that registry.  For an
    unknown id the first subscript raises [KeyError], and so does the
    handler's; otherwise nothing in the [try] block raises.  Returns the
    state at the [await], the state at the end, and the state in which
    the coordination ended. *)
Definition execute_research_task_run (task_id : string)
    (task_data : gmap string string) (w : World) (app : App)
  : outcome (App * App * Ctx RA WA AA) :=
  match registry app !! task_id with
  | None => Raise (KeyError task_id)
  | Some _ =>
      let app := mark_in_progress task_id app in
      let '(result, cx) := coordinate_task task_data w (coordinator_agent app) in
      Return (app, record_result task_id result (cx_world cx) (cx_self cx) app, cx)
  end.

(** [execute_research_task] as its caller sees it: the state it ends
    in. *)
Definition execute_research_task (task_id : string) (task_data : gmap string string)
    (w : World) (app : App) : outcome (App * Ctx RA WA AA) :=
  obind (execute_research_task_run task_id task_data w app)
        (fun '(_, app, cx) => Return (app, cx)).

(** The status the registry holds for a task. *)
Definition registry_status (task_id : string) (app : App) : option pyval :=
  registry app !! task_id ≫= fun record => record !! "status".

End Routes.

Arguments App RA WA AA : clear implicits.

(** ** The status state machine of the specification *)

(** One step forward: Pending to InProgress, InProgress to a terminal
    status. *)
Definition forward (s s' : TaskStatus) : bool :=
  match s, s' with
  | PENDING, IN_PROGRESS => true
  | IN_PROGRESS, COMPLETED => true
  | IN_PROGRESS, FAILED => true
  | _, _ => false
  end.

Definition terminal (s : TaskStatus) : bool :=
  match s with
  | COMPLETED | FAILED => true
  | _ => false
  end.

(** A history of statuses in which each status is one step forward from
    the one before. *)
Fixpoint only_forward (history : list TaskStatus) : bool :=
  match history with
  | s :: ((s' :: _) as rest) => forward s s' && only_forward rest
  | _ => true
  end.

(** ** Auxiliary notions used in the statements *)

(** Whether [get_system_metrics] counts a record under a status. *)
Definition counted_as (status : TaskStatus) (record : pydict) : bool :=
  match record !! "status" with
  | Some v => eq_str v (TaskStatus_value status)
  | None => false
  end.

(** Every task the coordinator has on record has reached a terminal
    status. *)
Definition all_terminal {RA WA AA : Type} (self : CoordinatorAgent RA WA AA) : Prop :=
  forall task_id record,
    active_tasks self !! task_id = Some record ->
    exists s, terminal s = true /\ record !! "status" = Some (status_val s).

(** A stage given by the function it computes: a worker without state, as
    any object with an [execute_task] method may be handed to the
    coordinator. *)
Record FnAgent : Type := mkFn {
  fn_type : AgentType;
  fn_run : pydict -> outcome pydict
}.

#[export] Instance FnAgent_Agent : Agent FnAgent :=
  {| agent_type := fn_type;
     execute_task := fun input w self => (fn_run self input, w, self) |}.

(** The values [json.dumps] followed by [json.loads] gives back unchanged:
    [None], booleans, numbers, strings, and lists and [str]-keyed dicts of
    such values. *)
Inductive json_faithful : pyval -> Prop :=
| jf_none : json_faithful PNone
| jf_bool b : json_faithful (PBool b)
| jf_int n : json_faithful (PInt n)
| jf_float q : json_faithful (PFloat q)
| jf_str s : json_faithful (PStr s)
| jf_list l : (forall v, v ∈ l -> json_faithful v) -> json_faithful (PList l)
| jf_dict d : (forall k v, d !! k = Some v -> json_faithful v) -> json_faithful (PDict d).

Section StageRaises.

Context {RA WA AA : Type} `{!Agent RA, !Agent WA, !Agent AA}.

(** [stage_raises task_data w self e]: in [coordinate_task task_data]
    started in world [w], the call of the Research stage raises [e], or
    it passes and the call of the Writing stage raises [e], or both pass
    and the call of the Analysis stage raises [e]. *)
Inductive stage_raises (task_data : gmap string string) (w : World)
    (self : CoordinatorAgent RA WA AA) (e : pyexn) : Prop :=
| research_raises cx :
    call_research
      (research_input (task_id_of self task_data) (topic_of task_data))
      (start_ctx task_data w self) = (Raise e, cx) ->
    stage_raises task_data w self e
| writing_raises research research_content cx0 cx :
    research_step (task_id_of self task_data) (topic_of task_data)
      (start_ctx task_data w self) = (Return (research, research_content), cx0) ->
    call_writing
      (writing_input research_content (content_type_of task_data) task_data) cx0
    = (Raise e, cx) ->
    stage_raises task_data w self e
| analysis_raises research research_content cx0 content cx1 cx :
    research_step (task_id_of self task_data) (topic_of task_data)
      (start_ctx task_data w self) = (Return (research, research_content), cx0) ->
    writing_step research_content (content_type_of task_data) task_data cx0
    = (Return content, cx1) ->
    call_analysis (analysis_input content) cx1 = (Raise e, cx) ->
    stage_raises task_data w self e.

End StageRaises.

(** ** Concrete inputs

    The values at which the statements below are exercised: the sentences
    and mappings of the repository's tests, and stand-in stages. *)

Module Demo.

(** A rendering for the examples: exact on [None], booleans and
    integers, the class name for the rest. *)
Definition repr : PyRepr := fun v =>
  match v with
  | PNone => "None"
  | PBool true => "True"
  | PBool false => "False"
  | PInt n => pretty n
  | _ => "<" +:+ type_name v +:+ ">"
  end.

(** No Redis server in reach, and one in reach with nothing stored. *)
Definition world : World :=
  mkWorld false ∅ (5 # 2) 1700000000 "2024-01-01T00:00:00"
          "0b9f6f0e-5c1c-4d6b-9a57-2f1d3c4e5a6b".

Definition world_redis : World :=
  mkWorld true ∅ (5 # 2) 1700000000 "2024-01-01T00:00:00"
          "0b9f6f0e-5c1c-4d6b-9a57-2f1d3c4e5a6b".

(** tests/test_tools.py *)
Definition positive_content : string :=
  "This is a great and amazing product with excellent features.".

Definition negative_content : string :=
  "This is a bad product with poor quality and terrible performance.".

(** tests/test_integration.py *)
Definition task_data : gmap string string :=
  <["task_id" := "test_integration_task"]>
    (<["topic" := "Machine Learning Applications"]>
       (<["content_type" := "article"]>
          (<["tone" := "professional"]>
             (<["depth" := "basic"]> ∅)))).

Definition request : ResearchRequest.t :=
  ResearchRequest.mk "Machine Learning Applications" "article" "professional"
                     "medium" "basic".

(** The three workers as the application builds them, without an API
    key. *)
Definition research_agent : ResearchAgent.t :=
  ResearchAgent.mk (WebSearchTool.search_async (H := repr)) None MemoryBank.init.

Definition writing_agent : WritingAgent.t := WritingAgent.mk None MemoryBank.init.

(** A research worker whose search tool finds three entries, the second
    without a url, and whose model answers. *)
Definition found_entries : list (gmap string string) :=
  [<["title" := "First"]> (<["url" := "https://a.example/1"]> ∅);
   <["title" := "Second"]> ∅;
   <["title" := "Third"]> (<["url" := "https://b.example/3"]> ∅)].

Definition research_agent_found : ResearchAgent.t :=
  ResearchAgent.mk (fun _ _ => found_entries) (Some (Return "Findings."))
                   MemoryBank.init.

Definition analysis_agent : AnalysisAgent.t := AnalysisAgent.mk None MemoryBank.init.

(** Stand-in stages. *)
Definition research_reports_failure : FnAgent :=
  mkFn RESEARCH (fun _ =>
    Return (<["status" := PStr "error"]>
              (<["reason" := PStr "unknown_message_type"]> ∅))).

Definition research_ok : FnAgent :=
  mkFn RESEARCH (fun _ =>
    Return (<["status" := PStr "completed"]>
              (<["result" := PDict (<["content" := PStr "notes"]> ∅)]> ∅))).

Definition writing_reports_failure : FnAgent :=
  mkFn WRITING (fun _ =>
    Return (<["status" := PStr "error"]>
              (<["reason" := PStr "unknown_message_type"]> ∅))).

Definition writing_throws : FnAgent :=
  mkFn WRITING (fun _ => Raise (PyExn "RuntimeError" "quota exceeded")).

Definition writing_ok : FnAgent :=
  mkFn WRITING (fun _ =>
    Return (<["status" := PStr "completed"]> (<["content" := PStr "text"]> ∅))).

Definition analysis_ok : FnAgent :=
  mkFn ANALYSIS (fun _ =>
    Return (<["status" := PStr "completed"]>
              (<["analysis_report" := PDict ∅]> ∅))).

Definition coordinator (r w a : FnAgent) : CoordinatorAgent FnAgent FnAgent FnAgent :=
  mkCoordinator r w a SessionManager.init ∅.

(** The value an outcome returns ([dflt] if it raises). *)
Definition returned {A} (dflt : A) (o : outcome A) : A :=
  match o with
  | Return a => a
  | Raise _ => dflt
  end.

(** A payload with a member [json.dumps] rejects. *)
Definition payload_with_set : pyval :=
  PDict (<["topic" := PStr "AI"]> (<["tags" := PObject "set"]> ∅)).

(** An update that names a task and resets its status. *)
Definition rewind_update : pydict :=
  <["task_id" := PStr "test_integration_task"]> (<["status" := PStr "pending"]> ∅).

(** The coordinator after it has brought the test's task to completion. *)
Definition finished_coordinator : CoordinatorAgent FnAgent FnAgent FnAgent :=
  cx_self (coordinate_task task_data world
             (coordinator research_ok writing_ok analysis_ok)).2.

(** A research stage that reports completion without a result. *)
Definition research_without_result : FnAgent :=
  mkFn RESEARCH (fun _ => Return (<["status" := PStr "completed"]> ∅)).

(** Two hours after [world], still without a Redis server. *)
Definition world_later : World :=
  mkWorld false ∅ (14405 # 2) 1700007200 "2024-01-01T02:00:00"
          "7c1d2e3f-4a5b-4c6d-8e9f-0a1b2c3d4e5f".

(** A bank with one entry written at the clock of [world] and one written
    two hours later. *)
Definition aged_bank : MemoryBank.t :=
  (MemoryBank.store_memory "fresh" (PStr "y") None world_later
     (MemoryBank.store_memory "old" (PStr "x") None world MemoryBank.init).2).2.

(** An input of the Research stage, and the run of the stage on it. *)
Definition research_input_ai : pydict :=
  <["topic" := PStr "AI"]> (<["task_id" := PStr "t1"]> ∅).

Definition research_run : outcome pydict * World * ResearchAgent.t :=
  ResearchAgent.execute_research (H := repr) research_input_ai world
                                 research_agent_found.

Definition research_run_simulated : outcome pydict * World * ResearchAgent.t :=
  ResearchAgent.execute_research (H := repr) research_input_ai world research_agent.


(** The application as [routes.py] builds it. *)
Definition app : App ResearchAgent.t WritingAgent.t AnalysisAgent.t :=
  mkApp (mkCoordinator research_agent writing_agent analysis_agent
           SessionManager.init ∅) ∅.

End Demo.

(** * Properties *)

(** ** Sentiment and readability (src/tools/custom_tools.py) *)

Section Numbers.
#[local] Open Scope Q_scope.

Lemma round_half_even_bounds (x : Q) (n : Z) :
  0 <= x -> x <= inject_Z n ->
  (0 <= PyFloat.round_half_even x <= n)%Z.
Proof.
  intros H0 Hn. unfold PyFloat.round_half_even.
  pose proof (Qfloor_le x) as Hfl.
  pose proof (Qlt_floor x) as Hlt.
  assert (Hf0 : (0 <= Qfloor x)%Z).
  { change 0%Z with (Qfloor 0). by apply Qfloor_resp_le. }
  assert (Hfn : (Qfloor x <= n)%Z).
  { rewrite <- (Qfloor_Z n). by apply Qfloor_resp_le. }
  assert (Hup : inject_Z (Qfloor x) < x -> (Qfloor x + 1 <= n)%Z).
  { intros Hs. assert (inject_Z (Qfloor x) < inject_Z n) as Hq
      by (eapply Qlt_le_trans; eauto).
    rewrite <- Zlt_Qlt in Hq. lia. }
  destruct (Qcompare_spec (Qminus x (inject_Z (Qfloor x))) (1 # 2)) as [He|Hl|Hg].
  - destruct (Z.even (Qfloor x)); [lia|].
    split; [lia|]. apply Hup.
    apply Qlt_minus_iff. unfold Qminus in He. rewrite He. reflexivity.
  - lia.
  - split; [lia|]. apply Hup.
    apply Qlt_minus_iff. unfold Qminus in Hg.
    eapply Qlt_trans; [|exact Hg]. reflexivity.
Qed.

Lemma clip01_bounds (x : Q) : 0 <= PyFloat.clip01 x <= 1.
Proof.
  unfold PyFloat.clip01.
  destruct (Qlt_le_dec x 1) as [H1|H1]; destruct (Qlt_le_dec 0 _) as [H0|H0];
    split; try apply Qle_refl; try (by apply Qlt_le_weak); done.
Qed.

Lemma round2_hundredths (x : Q) :
  0 <= x <= 1 ->
  exists k : Z, (0 <= k <= 100)%Z /\ PyFloat.round2 x == k # 100.
Proof.
  intros [H0 H1]. exists (PyFloat.round_half_even (x * 100)). split.
  - apply round_half_even_bounds.
    + apply Qmult_le_0_compat; [done | discriminate].
    + change (inject_Z 100) with (1 * 100).
      apply Qmult_le_compat_r; [done | discriminate].
  - unfold PyFloat.round2. apply Qred_correct.
Qed.

Lemma hundredths_bounds (k : Z) : (0 <= k <= 100)%Z -> 0 <= k # 100 <= 1.
Proof. intros [H0 H1]. unfold Qle; simpl. lia. Qed.

End Numbers.

Section Sentiment.
Import SentimentAnalyzerTool.
#[local] Open Scope Q_scope.

(** C5. With [p] and [n] the numbers of words of the lower-cased text that
    are in the positive and in the negative word set: when [p + n = 0] the
    result is "neutral" with score 0.5; otherwise, with ratio [p / (p + n)],
    it is "positive" iff ratio > 0.6, "negative" iff ratio < 0.4 and
    "neutral" in between, the reported score being the ratio rounded to two
    decimals.  The two test sentences come out "positive" with a score
    above 0.6 and "negative" with a score below 0.4. *)
Theorem analyze_sentiment_classification (text : string) :
  let words := PyStr.split (PyStr.lower text) in
  let p := count_in positive_words words in
  let n := count_in negative_words words in
  let ratio := PyFloat.of_nat p / PyFloat.of_nat (p + n) in
  let r := analyze_sentiment text in
  (if decide ((p + n)%nat = 0%nat)
   then r !! "sentiment" = Some (PStr "neutral")
        /\ r !! "score" = Some (PFloat (1 # 2))
   else (r !! "sentiment" = Some (PStr "positive") <-> 6 # 10 < ratio)
        /\ (r !! "sentiment" = Some (PStr "negative") <-> ratio < 4 # 10)
        /\ (r !! "sentiment" = Some (PStr "neutral")
            <-> 4 # 10 <= ratio <= 6 # 10)
        /\ r !! "score" = Some (PFloat (PyFloat.round2 ratio)))
  /\ (analyze_sentiment Demo.positive_content !! "sentiment" = Some (PStr "positive")
      /\ exists q, analyze_sentiment Demo.positive_content !! "score" = Some (PFloat q)
                   /\ 6 # 10 < q)
  /\ (analyze_sentiment Demo.negative_content !! "sentiment" = Some (PStr "negative")
      /\ exists q, analyze_sentiment Demo.negative_content !! "score" = Some (PFloat q)
                   /\ q < 4 # 10).
Proof.
  intros words p n ratio r. split; [|split].
  - subst r. unfold analyze_sentiment.
    fold words. fold p. fold n. fold ratio.
    destruct (decide ((p + n)%nat = 0%nat)) as [Hz|Hnz].
    + split; by simplify_map_eq.
    + destruct (Qlt_le_dec (6 # 10) ratio) as [Hhi|Hhi];
        [|destruct (Qlt_le_dec ratio (4 # 10)) as [Hlo|Hlo]];
        simplify_map_eq; repeat split; intros; try done; try congruence; try lra.
  - split; [vm_compute; reflexivity|]. exists 1. split; [vm_compute; reflexivity|reflexivity].
  - split; [vm_compute; reflexivity|]. exists 0. split; [vm_compute; reflexivity|reflexivity].
Qed.
End Sentiment.

Section Readability.
Import DataAnalysisTool.
#[local] Open Scope Q_scope.

(** C6. The readability score of any text lies in [0, 1] and is a whole
    number of hundredths; a text without words scores 0. *)
Theorem calculate_readability_range (text : string) :
  (0 <= calculate_readability text <= 1
   /\ exists k : Z, (0 <= k <= 100)%Z /\ calculate_readability text == k # 100)
  /\ (PyStr.split text = [] -> calculate_readability text = 0).
Proof.
  unfold calculate_readability. split.
  - destruct (PyStr.split text) as [|word words] eqn:Hw.
    + split; [split; discriminate|]. exists 0%Z. split; [lia | reflexivity].
    + match goal with |- context [PyFloat.round2 ?x] => set (v := x) end.
      destruct (round2_hundredths v) as (k & Hk & Heq).
      { subst v. apply clip01_bounds. }
      split; [|by exists k].
      rewrite Heq. by apply hundredths_bounds.
  - by intros ->.
Qed.

End Readability.

(** ** The stage workers (src/agents) *)

Section Stages.
Context `{PyRepr}.

Lemma result_urls_omap (search_results : list (gmap string string)) :
  ResearchAgent.result_urls search_results
  = omap (fun result => result !! "url") search_results.
Proof.
  unfold ResearchAgent.result_urls.
  induction search_results as [|result rest IH]; [done|].
  rewrite filter_cons. simpl. destruct (result !! "url") as [url|] eqn:Hurl.
  - rewrite decide_True by eauto. simpl. rewrite Hurl. simpl. by f_equal.
  - rewrite decide_False by (intros [? ?]; done). done.
Qed.

(** C8. When the Research stage returns, the [sources] of its result are
    the [url] values of the search results that have a [url] key, in the
    order of the results; the other results contribute nothing. *)
Theorem execute_research_sources (research_data : pydict) (w w' : World)
    (self self' : ResearchAgent.t) (out : pydict) :
  ResearchAgent.execute_research research_data w self = (Return out, w', self') ->
  let search_results :=
    ResearchAgent.web_search self
      (dict_get research_data "topic" (PStr EmptyString)) 5%nat in
  exists result : pydict,
    out !! "result" = Some (PDict result)
    /\ result !! "sources"
       = Some (PList (PStr <$> omap (fun entry => entry !! "url") search_results)).
Proof.
  intros Hrun search_results. unfold ResearchAgent.execute_research in Hrun.
  fold search_results in Hrun.
  destruct (match ResearchAgent.model self with
            | Some (Return text) => _ | _ => _ end) as [content confidence].
  unfold ResearchResult_dict in Hrun.
  destruct (dict_get research_data "task_id" (PStr EmptyString)); try discriminate.
  destruct (MemoryBank.store_memory _ _ _ _ _) as [w1 bank].
  injection Hrun as <- _ _.
  eexists. split; [by simplify_map_eq|].
  simplify_map_eq. by rewrite result_urls_omap.
Qed.


Lemma generate_content_status (content_data : pydict) (w w' : World)
    (self self' : WritingAgent.t) (out : pydict) :
  WritingAgent.generate_content content_data w self = (Return out, w', self') ->
  out !! "status" = Some (PStr "completed").
Proof.
  unfold WritingAgent.generate_content. intros Hrun.
  destruct (match WritingAgent.model self with
            | Some (Return text) => _ | _ => _ end) as [draft|e];
    [|discriminate].
  destruct (MemoryBank.store_memory _ _ _ _ _) as [w1 bank].
  injection Hrun as <- _ _. by simplify_map_eq.
Qed.

Lemma analyze_content_status (analysis_data : pydict) (w w' : World)
    (self self' : AnalysisAgent.t) (out : pydict) :
  AnalysisAgent.analyze_content analysis_data w self = (Return out, w', self') ->
  out !! "status" = Some (PStr "completed").
Proof.
  unfold AnalysisAgent.analyze_content. intros Hrun.
  destruct (dict_get analysis_data "content" (PStr EmptyString)); try discriminate.
  destruct (MemoryBank.store_memory _ _ _ _ _) as [w1 bank].
  injection Hrun as <- _ _. by simplify_map_eq.
Qed.

Lemma status_is_completed_true (d : pydict) :
  d !! "status" = Some (PStr "completed") -> status_is_completed d = true.
Proof. unfold status_is_completed. by intros ->. Qed.

(** C10. An outcome that [generate_content] or [analyze_content] returns
    has status "completed"; hence the coordinator's status check on such
    an outcome never raises, whatever message it would raise with: a task
    can fail in the Writing or the Analysis step only through an
    exception. *)
Theorem returned_outcome_is_completed (input : pydict) (w w' : World) (out : pydict) :
  (exists self self', WritingAgent.generate_content input w self = (Return out, w', self'))
  \/ (exists self self', AnalysisAgent.analyze_content input w self = (Return out, w', self')) ->
  out !! "status" = Some (PStr "completed")
  /\ forall (RA WA AA : Type) (msg : string) (cx : Ctx RA WA AA),
       check_completed out msg cx = (Return tt, cx).
Proof.
  intros Hrun.
  assert (Hst : out !! "status" = Some (PStr "completed")).
  { destruct Hrun as [(self & self' & Hrun)|(self & self' & Hrun)];
      eauto using generate_content_status, analyze_content_status. }
  split; [done|]. intros RA WA AA msg cx. unfold check_completed.
  by rewrite (status_is_completed_true _ Hst).
Qed.

End Stages.

(** ** The coordinator (src/agents/coordinator_agent.py) *)

Section CoordinatorProperties.

Context {RA WA AA : Type} `{!Agent RA, !Agent WA, !Agent AA}.

Implicit Types (self : CoordinatorAgent RA WA AA) (cx : Ctx RA WA AA).
Implicit Types (task_data : gmap string string) (w : World).

(** A stage call leaves the coordinator's own books alone. *)
Lemma call_research_inv input cx o cx' :
  call_research input cx = (o, cx') ->
  cx_calls cx' = cx_calls cx ++ [(RESEARCH, input)] /\ same_books cx cx'.
Proof.
  unfold call_research.
  destruct (execute_task input (cx_world cx) (research_agent (cx_self cx)))
    as [[o1 w1] r1].
  intros [= <- <-]. by repeat split.
Qed.

Lemma call_writing_inv input cx o cx' :
  call_writing input cx = (o, cx') ->
  cx_calls cx' = cx_calls cx ++ [(WRITING, input)] /\ same_books cx cx'.
Proof.
  unfold call_writing.
  destruct (execute_task input (cx_world cx) (writing_agent (cx_self cx)))
    as [[o1 w1] r1].
  intros [= <- <-]. by repeat split.
Qed.

Lemma call_analysis_inv input cx o cx' :
  call_analysis input cx = (o, cx') ->
  cx_calls cx' = cx_calls cx ++ [(ANALYSIS, input)] /\ same_books cx cx'.
Proof.
  unfold call_analysis.
  destruct (execute_task input (cx_world cx) (analysis_agent (cx_self cx)))
    as [[o1 w1] r1].
  intros [= <- <-]. by repeat split.
Qed.

Lemma same_books_refl cx : same_books cx cx.
Proof. by split. Qed.

Lemma same_books_trans cx1 cx2 cx3 :
  same_books cx1 cx2 -> same_books cx2 cx3 -> same_books cx1 cx3.
Proof. intros [? ?] [? ?]. split; congruence. Qed.

(** The record and the session a coordination starts with. *)
Lemma begin_task_record task_data w self :
  active_tasks (begin_task task_data w self).2 !! task_id_of self task_data
  = Some (<["status" := status_val IN_PROGRESS]>
            (<["current_step" := PStr "research"]>
               (<["session" := PObject "Session"]> ∅))).
Proof. unfold begin_task. simpl. by rewrite lookup_insert_eq. Qed.

Lemma begin_task_session task_data w self :
  SessionManager.get_session (begin_task task_data w self).1
    (session_manager (begin_task task_data w self).2)
  = Some (Session.new w (begin_task task_data w self).1).
Proof.
  unfold begin_task, SessionManager.get_session. simpl.
  by rewrite lookup_insert_eq.
Qed.

(** What [finish_task] leaves behind, for either ending. *)
Lemma finish_task_status task_id sid o cx :
  is_Some (active_tasks (cx_self cx) !! task_id) ->
  task_status task_id (cx_self (finish_task task_id sid (o, cx)).2)
  = Some (status_val (match o with Return _ => COMPLETED | Raise _ => FAILED end)).
Proof.
  intros [record Hrec]. unfold task_status.
  destruct o; simpl; rewrite lookup_alter_eq, Hrec; simpl;
    by rewrite lookup_insert_eq.
Qed.

Lemma finish_task_calls task_id sid o cx :
  cx_calls (finish_task task_id sid (o, cx)).2 = cx_calls cx.
Proof. by destruct o. Qed.

Lemma finish_task_session task_id sid o cx session :
  SessionManager.get_session sid (session_manager (cx_self cx)) = Some session ->
  SessionManager.get_session sid
    (session_manager (cx_self (finish_task task_id sid (o, cx)).2))
  = Some (match o with
          | Return final =>
              Session.update_state "completed" (PDict final) (cx_world cx) session
          | Raise e =>
              Session.update_state "failed"
                (PDict (<["error" := PStr (exn_str e)]> ∅)) (cx_world cx) session
          end).
Proof.
  unfold SessionManager.get_session. intros Hs.
  destruct o; simpl; by rewrite lookup_alter_eq, Hs.
Qed.


Lemma start_ctx_record task_data w self :
  is_Some (active_tasks (cx_self (start_ctx task_data w self))
             !! task_id_of self task_data).
Proof. eexists. apply begin_task_record. Qed.

(** When the [try] block raises, the handler answers with the failed
    outcome carrying [str(e)]. *)
Lemma coordinate_task_raise task_data w self e cx :
  pipeline (task_id_of self task_data) (topic_of task_data)
    (content_type_of task_data) task_data (start_ctx task_data w self)
  = (Raise e, cx) ->
  same_books (start_ctx task_data w self) cx ->
  let run := coordinate_task task_data w self in
  run.1 = failed_result (task_id_of self task_data) (exn_str e)
  /\ task_status (task_id_of self task_data) (cx_self run.2)
     = Some (status_val FAILED)
  /\ cx_calls run.2 = cx_calls cx
  /\ (SessionManager.get_session (begin_task task_data w self).1
        (session_manager (cx_self run.2))
      ≫= Session.get_state "failed")
     = Some (PDict (<["error" := PStr (exn_str e)]> ∅)).
Proof.
  intros Hp [Hat Hsm] run. subst run. unfold coordinate_task. rewrite Hp.
  split; [done|]. split; [|split].
  - rewrite finish_task_status; [done|]. rewrite Hat. apply start_ctx_record.
  - apply finish_task_calls.
  - erewrite finish_task_session.
    2:{ rewrite Hsm. apply begin_task_session. }
    simpl. unfold Session.get_state. simpl. by rewrite lookup_insert_eq.
Qed.

(** C1. When the Research stage returns an outcome whose status is not
    "completed", the task ends failed with the error "Research phase
    failed", in the returned outcome, in the coordinator's record and in
    the session; the research call is the only stage call made, so the
    Writing and Analysis stages are not invoked, and the outcome carries
    no content and no analysis. *)
Theorem research_not_completed_fails task_data w self research_result cx :
  call_research (research_input (task_id_of self task_data) (topic_of task_data))
    (start_ctx task_data w self) = (Return research_result, cx) ->
  status_is_completed research_result = false ->
  let run := coordinate_task task_data w self in
  run.1 !! "status" = Some (status_val FAILED)
  /\ run.1 !! "error" = Some (PStr "Research phase failed")
  /\ run.1 !! "content" = None /\ run.1 !! "analysis" = None
  /\ task_status (task_id_of self task_data) (cx_self run.2)
     = Some (status_val FAILED)
  /\ (SessionManager.get_session (begin_task task_data w self).1
        (session_manager (cx_self run.2))
      ≫= Session.get_state "failed")
     = Some (PDict (<["error" := PStr "Research phase failed"]> ∅))
  /\ cx_calls run.2
     = [(RESEARCH, research_input (task_id_of self task_data) (topic_of task_data))].
Proof.
  intros Hcall Hst run.
  destruct (call_research_inv _ _ _ _ Hcall) as [Hcalls Hbooks].
  assert (Hp : pipeline (task_id_of self task_data) (topic_of task_data)
                 (content_type_of task_data) task_data (start_ctx task_data w self)
               = (Raise (Exception "Research phase failed"), cx)).
  { unfold pipeline, research_step, bind at 1 2. rewrite Hcall.
    unfold bind, check_completed. by rewrite Hst. }
  destruct (coordinate_task_raise _ _ _ _ _ Hp Hbooks) as (Hres & Hts & Hc & Hse).
  subst run. rewrite Hres, Hc, Hcalls. unfold failed_result.
  repeat split; try done; by simplify_map_eq.
Qed.

(** C2. When the Research stage returns a completed outcome with its
    content and the Writing stage, called with that content, returns an
    outcome whose status is not "completed", the task ends failed with
    the error "Writing phase failed"; the stage calls made are the
    research call and the writing call, so the Analysis stage is not
    invoked and the outcome carries no analysis. *)
Theorem writing_not_completed_fails task_data w self
    research_result research research_content cx0 writing_result cx :
  call_research (research_input (task_id_of self task_data) (topic_of task_data))
    (start_ctx task_data w self) = (Return research_result, cx0) ->
  status_is_completed research_result = true ->
  dict_getitem research_result "result" = Return research ->
  getitem research "content" = Return research_content ->
  call_writing
    (writing_input research_content (content_type_of task_data) task_data) cx0
  = (Return writing_result, cx) ->
  status_is_completed writing_result = false ->
  let run := coordinate_task task_data w self in
  run.1 !! "status" = Some (status_val FAILED)
  /\ run.1 !! "error" = Some (PStr "Writing phase failed")
  /\ run.1 !! "analysis" = None
  /\ task_status (task_id_of self task_data) (cx_self run.2)
     = Some (status_val FAILED)
  /\ (SessionManager.get_session (begin_task task_data w self).1
        (session_manager (cx_self run.2))
      ≫= Session.get_state "failed")
     = Some (PDict (<["error" := PStr "Writing phase failed"]> ∅))
  /\ cx_calls run.2
     = [(RESEARCH, research_input (task_id_of self task_data) (topic_of task_data));
        (WRITING, writing_input research_content (content_type_of task_data) task_data)].
Proof.
  intros Hr Hrs Hres Hcont Hw Hws run.
  destruct (call_research_inv _ _ _ _ Hr) as [Hcalls0 Hbooks0].
  destruct (call_writing_inv _ _ _ _ Hw) as [Hcalls1 Hbooks1].
  assert (Hp : pipeline (task_id_of self task_data) (topic_of task_data)
                 (content_type_of task_data) task_data (start_ctx task_data w self)
               = (Raise (Exception "Writing phase failed"), cx)).
  { unfold pipeline, research_step, bind at 1 2. rewrite Hr.
    unfold bind at 1 2, check_completed. rewrite Hrs. unfold ret at 1.
    unfold bind at 1 2, lift. rewrite Hres, Hcont. unfold ret at 1.
    unfold writing_step, bind at 1 2. rewrite Hw.
    unfold bind, check_completed. by rewrite Hws. }
  destruct (coordinate_task_raise _ _ _ _ _ Hp (same_books_trans _ _ _ Hbooks0 Hbooks1))
    as (Hout & Hts & Hc & Hse).
  subst run. rewrite Hout, Hc, Hcalls1, Hcalls0. unfold failed_result.
  repeat split; try done; by simplify_map_eq.
Qed.


Lemma check_completed_books result msg cx o cx' :
  check_completed result msg cx = (o, cx') -> cx' = cx.
Proof.
  unfold check_completed. destruct (status_is_completed result); by intros [= _ <-].
Qed.

Lemma research_step_books task_id topic cx o cx' :
  research_step task_id topic cx = (o, cx') -> same_books cx cx'.
Proof.
  unfold research_step, bind. 
  destruct (call_research _ cx) as [[r|e] cx1] eqn:Hcall;
    apply call_research_inv in Hcall as [_ Hb]; [|by intros [= _ <-]].
  destruct (check_completed r _ cx1) as [[[]|e] cx2] eqn:Hchk;
    apply check_completed_books in Hchk as ->; [|by intros [= _ <-]].
  unfold lift, ret.
  destruct (dict_getitem r "result") as [research|e]; [|by intros [= _ <-]].
  destruct (getitem research "content"); by intros [= _ <-].
Qed.

Lemma writing_step_books research_content content_type task_data cx o cx' :
  writing_step research_content content_type task_data cx = (o, cx') ->
  same_books cx cx'.
Proof.
  unfold writing_step, bind.
  destruct (call_writing _ cx) as [[r|e] cx1] eqn:Hcall;
    apply call_writing_inv in Hcall as [_ Hb]; [|by intros [= _ <-]].
  destruct (check_completed r _ cx1) as [[[]|e] cx2] eqn:Hchk;
    apply check_completed_books in Hchk as ->; [|by intros [= _ <-]].
  unfold lift. by intros [= _ <-].
Qed.

(** C3. When one of the three stage calls raises an exception [e], the
    coordination does not raise: it returns the failed outcome whose error
    is [str(e)], and records the failure in its task record and in the
    session. *)
Theorem stage_exception_is_absorbed task_data w self e :
  stage_raises task_data w self e ->
  let run := coordinate_task task_data w self in
  run.1 !! "task_id" = Some (PStr (task_id_of self task_data))
  /\ run.1 !! "status" = Some (status_val FAILED)
  /\ run.1 !! "error" = Some (PStr (exn_str e))
  /\ task_status (task_id_of self task_data) (cx_self run.2)
     = Some (status_val FAILED)
  /\ (SessionManager.get_session (begin_task task_data w self).1
        (session_manager (cx_self run.2))
      ≫= Session.get_state "failed")
     = Some (PDict (<["error" := PStr (exn_str e)]> ∅)).
Proof.
  intros Hraise run.
  assert (exists cx,
    pipeline (task_id_of self task_data) (topic_of task_data)
      (content_type_of task_data) task_data (start_ctx task_data w self)
    = (Raise e, cx)
    /\ same_books (start_ctx task_data w self) cx) as (cx & Hp & Hb).
  { destruct Hraise as [cx Hr | research rc cx0 cx Hr Hw
                       | research rc cx0 content cx1 cx Hr Hw Ha].
    - exists cx. split; [|by apply call_research_inv in Hr as [_ ?]].
      unfold pipeline, research_step, bind. by rewrite Hr.
    - exists cx. split.
      + unfold pipeline, bind at 1. rewrite Hr.
        unfold writing_step, bind. by rewrite Hw.
      + apply research_step_books in Hr. apply call_writing_inv in Hw as [_ ?].
        by eapply same_books_trans.
    - exists cx. split.
      + unfold pipeline, bind at 1. rewrite Hr. unfold bind at 1. rewrite Hw.
        unfold analysis_step, bind. by rewrite Ha.
      + apply research_step_books in Hr. apply writing_step_books in Hw.
        apply call_analysis_inv in Ha as [_ ?].
        eapply same_books_trans; [|done]. by eapply same_books_trans. }
  destruct (coordinate_task_raise _ _ _ _ _ Hp Hb) as (Hout & Hts & _ & Hse).
  subst run. rewrite Hout. unfold failed_result.
  repeat split; try done; by simplify_map_eq.
Qed.


Lemma research_step_calls task_id topic cx o cx' :
  research_step task_id topic cx = (o, cx') ->
  cx_calls cx' = cx_calls cx ++ [(RESEARCH, research_input task_id topic)].
Proof.
  unfold research_step, bind.
  destruct (call_research _ cx) as [[r|e] cx1] eqn:Hcall;
    apply call_research_inv in Hcall as [Hc _]; [|by intros [= _ <-]].
  destruct (check_completed r _ cx1) as [[[]|e] cx2] eqn:Hchk;
    apply check_completed_books in Hchk as ->; [|by intros [= _ <-]].
  unfold lift, ret.
  destruct (dict_getitem r "result") as [research|e]; [|by intros [= _ <-]].
  destruct (getitem research "content"); by intros [= _ <-].
Qed.

Lemma writing_step_calls research_content content_type task_data cx o cx' :
  writing_step research_content content_type task_data cx = (o, cx') ->
  cx_calls cx'
  = cx_calls cx ++ [(WRITING, writing_input research_content content_type task_data)].
Proof.
  unfold writing_step, bind.
  destruct (call_writing _ cx) as [[r|e] cx1] eqn:Hcall;
    apply call_writing_inv in Hcall as [Hc _]; [|by intros [= _ <-]].
  destruct (check_completed r _ cx1) as [[[]|e] cx2] eqn:Hchk;
    apply check_completed_books in Hchk as ->; [|by intros [= _ <-]].
  unfold lift. by intros [= _ <-].
Qed.

Lemma analysis_step_inv content cx o cx' :
  analysis_step content cx = (o, cx') ->
  cx_calls cx' = cx_calls cx ++ [(ANALYSIS, analysis_input content)]
  /\ same_books cx cx'.
Proof.
  unfold analysis_step, bind.
  destruct (call_analysis _ cx) as [[r|e] cx1] eqn:Hcall;
    apply call_analysis_inv in Hcall as [Hc Hb]; [|by intros [= _ <-]].
  unfold lift. by intros [= _ <-].
Qed.

(** The shape of every run of the [try] block: the books are untouched,
    the stage calls start with the research call, and a normal end
    delivers the assembled final result. *)
Lemma pipeline_inv task_id topic content_type task_data cx o cx' :
  pipeline task_id topic content_type task_data cx = (o, cx') ->
  same_books cx cx'
  /\ (exists rest,
        cx_calls cx' = cx_calls cx ++ (RESEARCH, research_input task_id topic) :: rest)
  /\ match o with
     | Return final =>
         exists research content analysis,
           final = final_result task_id research content analysis
     | Raise _ => True
     end.
Proof.
  unfold pipeline, bind.
  destruct (research_step task_id topic cx) as [[[research rc]|e] cx1] eqn:Hr;
    pose proof (research_step_books _ _ _ _ _ Hr) as Hb1;
    pose proof (research_step_calls _ _ _ _ _ Hr) as Hc1.
  2:{ intros [= <- <-]. split; [done|]. split; [|done]. by exists []. }
  destruct (writing_step rc content_type task_data cx1) as [[content|e] cx2] eqn:Hw;
    pose proof (writing_step_books _ _ _ _ _ _ Hw) as Hb2;
    pose proof (writing_step_calls _ _ _ _ _ _ Hw) as Hc2.
  2:{ intros [= <- <-]. split; [by eapply same_books_trans|]. split; [|done].
      eexists. rewrite Hc2, Hc1, <- app_assoc. done. }
  destruct (analysis_step content cx2) as [[analysis|e] cx3] eqn:Ha;
    apply analysis_step_inv in Ha as [Hc3 Hb3].
  - unfold ret. intros [= <- <-].
    split; [eauto using same_books_trans|]. split; [|eauto].
    eexists. rewrite Hc3, Hc2, Hc1, <- !app_assoc. done.
  - intros [= <- <-].
    split; [eauto using same_books_trans|]. split; [|done].
    eexists. rewrite Hc3, Hc2, Hc1, <- !app_assoc. done.
Qed.

(** The research call always comes first, and its depth is the
    coordinator's constant, whatever [task_data] holds. *)
Lemma coordinate_task_first_call task_data w self :
  exists rest,
    cx_calls (coordinate_task task_data w self).2
    = (RESEARCH, research_input (task_id_of self task_data) (topic_of task_data))
        :: rest
    /\ research_input (task_id_of self task_data) (topic_of task_data) !! "depth"
       = Some (PStr "comprehensive").
Proof.
  unfold coordinate_task.
  destruct (pipeline _ _ _ _ _) as [o cx] eqn:Hp.
  apply pipeline_inv in Hp as (_ & [rest Hc] & _).
  exists rest. rewrite finish_task_calls, Hc. split; [done|].
  unfold research_input. by simplify_map_eq.
Qed.

(** Every coordination ends with one terminal status, the same in the
    returned outcome and in the coordinator's record. *)
Lemma coordinate_task_terminal task_data w self :
  exists s,
    terminal s = true
    /\ (coordinate_task task_data w self).1 !! "status" = Some (status_val s)
    /\ task_status (task_id_of self task_data)
         (cx_self (coordinate_task task_data w self).2)
       = Some (status_val s).
Proof.
  unfold coordinate_task.
  destruct (pipeline _ _ _ _ _) as [o cx] eqn:Hp.
  apply pipeline_inv in Hp as ([Hat _] & _ & Ho).
  exists (match o with Return _ => COMPLETED | Raise _ => FAILED end).
  split; [by destruct o|]. split.
  - destruct o as [final|e]; simpl.
    + destruct Ho as (research & content & analysis & ->).
      unfold final_result. by simplify_map_eq.
    + unfold failed_result. by simplify_map_eq.
  - apply finish_task_status. rewrite Hat. apply start_ctx_record.
Qed.

Lemma begin_task_status task_data w self :
  task_status (task_id_of self task_data) (begin_task task_data w self).2
  = Some (status_val IN_PROGRESS).
Proof. unfold task_status. rewrite begin_task_record. by simplify_map_eq. Qed.

(** What [handle_task_update] does to the records. *)
Lemma handle_task_update_merges update_data self :
  (handle_task_update update_data self).2 = self
  \/ exists task_id record,
       update_data !! "task_id" = Some (PStr task_id)
       /\ active_tasks self !! task_id = Some record
       /\ active_tasks (handle_task_update update_data self).2
          = <[task_id := update_data ∪ record]> (active_tasks self).
Proof.
  unfold handle_task_update.
  destruct (update_data !! "task_id") as [[]|] eqn:Hid; auto.
  destruct (active_tasks self !! s) as [record|] eqn:Hrec; auto.
  right. by exists s, record.
Qed.

End CoordinatorProperties.

(** With the Writing worker of the repository in the coordinator, the
    writing step fails only when the worker itself raises: neither the
    status check nor the subscript of the content can. *)
Section WritingStep.

Context `{PyRepr} {RA AA : Type} `{!Agent RA, !Agent AA}.

Lemma writing_step_fails_by_exception research_content content_type
    (task_data : gmap string string) (cx cx' : Ctx RA WritingAgent.t AA) e :
  writing_step research_content content_type task_data cx = (Raise e, cx') ->
  call_writing (writing_input research_content content_type task_data) cx
  = (Raise e, cx').
Proof.
  unfold writing_step, bind.
  destruct (call_writing _ cx) as [[out|e'] cx1] eqn:Hcall; [|by intros [= -> ->]].
  intros Hstep. exfalso.
  unfold call_writing in Hcall. cbn [execute_task WritingAgent_Agent] in Hcall.
  destruct (WritingAgent.generate_content _ _ _) as [[o w1] wa1] eqn:Hgen.
  injection Hcall as -> <-.
  pose proof (generate_content_status _ _ _ _ _ _ Hgen) as Hst.
  assert (Hc : is_Some (out !! "content")).
  { revert Hgen. unfold WritingAgent.generate_content.
    destruct (match WritingAgent.model _ with
              | Some (Return text) => _ | _ => _ end) as [draft|e']; [|done].
    destruct (MemoryBank.store_memory _ _ _ _ _) as [w2 bank].
    intros [= <- _ _]. by simplify_map_eq. }
  destruct Hc as [content Hc].
  revert Hstep. unfold check_completed.
  rewrite (status_is_completed_true _ Hst). unfold ret, lift, dict_getitem.
  by rewrite Hc.
Qed.

End WritingStep.

(** ** The task registry (src/api/routes.py) *)

Section RoutesProperties.

Context {RA WA AA : Type} `{!Agent RA, !Agent WA, !Agent AA}.

Implicit Types (app : App RA WA AA) (w : World).

Lemma make_task_data_task_id task_id request (self : CoordinatorAgent RA WA AA) :
  task_id_of self (make_task_data task_id request) = task_id.
Proof. unfold task_id_of, make_task_data. by simplify_map_eq. Qed.

(** [execute_research_task] on a registered id, written out. *)
Lemma execute_research_task_run_registered (task_id : string)
    (task_data : gmap string string) w app record :
  registry app !! task_id = Some record ->
  execute_research_task_run task_id task_data w app
  = Return (mark_in_progress task_id app,
            record_result task_id
              (coordinate_task task_data w (coordinator_agent app)).1
              (cx_world (coordinate_task task_data w (coordinator_agent app)).2)
              (cx_self (coordinate_task task_data w (coordinator_agent app)).2)
              (mark_in_progress task_id app),
            (coordinate_task task_data w (coordinator_agent app)).2).
Proof.
  intros Hrec. unfold execute_research_task_run. rewrite Hrec.
  cbn [coordinator_agent mark_in_progress].
  by destruct (coordinate_task task_data w (coordinator_agent app)).
Qed.

Lemma execute_research_task_registered (task_id : string)
    (task_data : gmap string string) w app record :
  registry app !! task_id = Some record ->
  execute_research_task task_id task_data w app
  = Return (record_result task_id
              (coordinate_task task_data w (coordinator_agent app)).1
              (cx_world (coordinate_task task_data w (coordinator_agent app)).2)
              (cx_self (coordinate_task task_data w (coordinator_agent app)).2)
              (mark_in_progress task_id app),
            (coordinate_task task_data w (coordinator_agent app)).2).
Proof.
  intros Hrec. unfold execute_research_task.
  by rewrite (execute_research_task_run_registered _ _ _ _ _ Hrec).
Qed.

(** C4, as the code has it.  Take a task submitted through
    [create_research_task] and run by [execute_research_task].  The
    status of its registry record is pending after the submission, in
    progress in the state in which the run awaits the coordinator, and
    the terminal status of the coordination (completed or failed) at the
    end: three members of [TaskStatus], each one step forward from the
    one before.  The coordinator's own record of the task is in progress
    when the [try] block of [coordinate_task] is entered, still in
    progress when the block is left, and then takes that same terminal
    status.  [handle_task_update] stands apart: it either changes nothing
    or merges the whole update mapping into the record of the task it
    names, whatever status that record holds. *)
Theorem submitted_task_status_moves_forward
    (request : ResearchRequest.t) (w w1 : World) app :
  let task_id := (create_research_task request w app).1.1 in
  let task_data := (create_research_task request w app).1.2 in
  let app1 := (create_research_task request w app).2 in
  (exists app_waiting app2 cx s,
     execute_research_task_run task_id task_data w1 app1
     = Return (app_waiting, app2, cx)
     /\ execute_research_task task_id task_data w1 app1 = Return (app2, cx)
     /\ terminal s = true
     /\ registry_status task_id <$> [app1; app_waiting; app2]
        = (fun status => Some (status_val status)) <$> [PENDING; IN_PROGRESS; s]
     /\ only_forward [PENDING; IN_PROGRESS; s] = true
     /\ (exists o cx_try,
           pipeline task_id (topic_of task_data) (content_type_of task_data)
             task_data (start_ctx task_data w1 (coordinator_agent app_waiting))
           = (o, cx_try)
           /\ (coordinate_task task_data w1 (coordinator_agent app_waiting)).2 = cx
           /\ task_status task_id
                <$> [cx_self (start_ctx task_data w1 (coordinator_agent app_waiting));
                     cx_self cx_try; cx_self cx]
              = (fun status => Some (status_val status))
                  <$> [IN_PROGRESS; IN_PROGRESS; s])
     /\ only_forward [IN_PROGRESS; s] = true)
  /\ (forall (update_data : pydict) (self : CoordinatorAgent RA WA AA),
        (handle_task_update update_data self).2 = self
        \/ exists id record,
             update_data !! "task_id" = Some (PStr id)
             /\ active_tasks self !! id = Some record
             /\ active_tasks (handle_task_update update_data self).2
                = <[id := update_data ∪ record]> (active_tasks self)).
Proof.
  intros task_id task_data app1.
  assert (Hrec : exists record, registry app1 !! task_id = Some record
                                /\ record !! "status" = Some (PStr "pending")).
  { eexists. split; [apply lookup_insert_eq|]. by simplify_map_eq. }
  destruct Hrec as (record & Hrec & Hst).
  assert (Htd : task_data = make_task_data task_id request) by done.
  clearbody app1 task_data task_id. subst task_data.
  split; [|intros; apply handle_task_update_merges].
  set (task_data := make_task_data task_id request).
  set (self := coordinator_agent app1).
  assert (Hid : task_id_of self task_data = task_id)
    by apply make_task_data_task_id.
  destruct (coordinate_task_terminal task_data w1 self) as (s & Hterm & Hout & Hts).
  rewrite Hid in Hts.
  destruct (pipeline task_id (topic_of task_data) (content_type_of task_data)
              task_data (start_ctx task_data w1 self)) as [o cx_try] eqn:Hp.
  pose proof Hp as Hinv. rewrite <- Hid in Hinv at 1.
  apply pipeline_inv in Hinv as ([Hat _] & _ & _).
  eexists _, _, _, s.
  split; [exact (execute_research_task_run_registered _ _ _ _ _ Hrec)|].
  split; [exact (execute_research_task_registered _ _ _ _ _ Hrec)|].
  split; [done|]. split; [|split; [by destruct s|split; [|by destruct s]]].
  - cbn [fmap list_fmap]. f_equal; [|f_equal; [|f_equal]].
    + unfold registry_status. by rewrite Hrec.
    + unfold registry_status, mark_in_progress. cbn [registry].
      rewrite lookup_alter_eq, Hrec. simpl. by rewrite lookup_insert_eq.
    + unfold registry_status, record_result, mark_in_progress. cbn [registry].
      rewrite !lookup_alter_eq, Hrec. simpl. rewrite lookup_insert_eq.
      unfold dict_get. fold self. by rewrite Hout.
  - exists o, cx_try. cbn [coordinator_agent mark_in_progress]. fold self.
    split; [exact Hp|]. split; [done|].
    cbn [fmap list_fmap]. f_equal; [|f_equal; [|f_equal]].
    + rewrite <- Hid at 1. unfold start_ctx. cbn [cx_self].
      apply begin_task_status.
    + unfold task_status. rewrite Hat. rewrite <- Hid at 1.
      fold (task_status (task_id_of self task_data)
              (cx_self (start_ctx task_data w1 self))).
      unfold start_ctx. cbn [cx_self]. apply begin_task_status.
    + exact Hts.
Qed.

(** Whatever depth a request carries, the research call made for it has
    the coordinator's own depth. *)
Lemma execute_research_task_first_call (request : ResearchRequest.t) (w w1 : World) app :
  exists app2 cx rest,
    execute_research_task (create_research_task request w app).1.1
      (create_research_task request w app).1.2 w1
      (create_research_task request w app).2 = Return (app2, cx)
    /\ cx_calls cx
       = (RESEARCH, research_input (uuid4 w) (ResearchRequest.topic request)) :: rest.
Proof.
  unfold execute_research_task, execute_research_task_run, create_research_task.
  cbn [fst snd registry]. rewrite lookup_insert_eq.
  match goal with
  | |- context [coordinate_task ?td w1 ?self] =>
      destruct (coordinate_task_first_call td w1 self) as (rest & Hcalls & _);
      destruct (coordinate_task td w1 self) as [result cx]
  end.
  eexists _, cx, rest. split; [done|]. cbn [snd] in Hcalls. rewrite Hcalls.
  rewrite make_task_data_task_id. unfold topic_of, make_task_data.
  by simplify_map_eq.
Qed.

End RoutesProperties.

(** ** The memory bank (src/memory/memory_bank.py) *)

Section Json.

Lemma dumps_dict (d : pydict) :
  dumps (PDict d)
  = if decide (size (omap dumps d) = size d) then Some (JObj (omap dumps d)) else None.
Proof. reflexivity. Qed.

Lemma dumps_list (l : list pyval) : dumps (PList l) = JArr <$> mapM dumps l.
Proof. reflexivity. Qed.

Lemma loads_obj (d : gmap string json) : loads (JObj d) = PDict (loads <$> d).
Proof. reflexivity. Qed.

Lemma loads_arr (l : list json) : loads (JArr l) = PList (loads <$> l).
Proof. reflexivity. Qed.

Lemma mapM_dumps_faithful (l : list pyval) :
  (forall v, v ∈ l -> exists j, dumps v = Some j /\ loads j = v) ->
  exists js, mapM dumps l = Some js /\ loads <$> js = l.
Proof.
  induction l as [|v l IH]; intros Hl.
  - by exists [].
  - destruct (Hl v) as (j & Hj & Hv); [by left|].
    destruct IH as (js & Hjs & Hls); [intros; apply Hl; by right|].
    exists (j :: js). split.
    + cbn [mapM]. rewrite Hj. simpl. rewrite Hjs. done.
    + by rewrite fmap_cons, Hv, Hls.
Qed.

Lemma omap_dumps_faithful (d : pydict) :
  (forall k v, d !! k = Some v -> exists j, dumps v = Some j /\ loads j = v) ->
  size (omap dumps d) = size d /\ loads <$> omap dumps d = d.
Proof.
  intros Hd.
  assert (Heq : omap dumps d = (fun v => default JNull (dumps v)) <$> d).
  { apply map_eq. intros k. rewrite lookup_omap, lookup_fmap.
    destruct (d !! k) as [v|] eqn:Hk; [|done]. simpl.
    destruct (Hd k v Hk) as (j & -> & _). done. }
  rewrite Heq. split; [apply map_size_fmap|].
  apply map_eq. intros k. rewrite !lookup_fmap.
  destruct (d !! k) as [v|] eqn:Hk; [|done]. simpl.
  destruct (Hd k v Hk) as (j & -> & Hv). simpl. by rewrite Hv.
Qed.

(** A faithful value is accepted by [json.dumps], and [json.loads] gives
    it back. *)
Lemma loads_dumps (v : pyval) :
  json_faithful v -> exists j, dumps v = Some j /\ loads j = v.
Proof.
  induction 1 as [|b|n|q|s|l _ IH|d _ IH]; try (eexists; split; reflexivity).
  - destruct (mapM_dumps_faithful l IH) as (js & Hjs & Hl).
    exists (JArr js). rewrite dumps_list, Hjs, loads_arr, Hl. done.
  - destruct (omap_dumps_faithful d IH) as [Hsize Hd].
    exists (JObj (omap dumps d)).
    rewrite dumps_dict, decide_True by done. by rewrite loads_obj, Hd.
Qed.

End Json.

Section MemoryBankProperties.
Import MemoryBank.

Lemma memory_data_faithful (w : World) (data : pyval) (metadata : option pydict) :
  json_faithful data ->
  json_faithful (PDict (metadata_or_empty metadata)) ->
  json_faithful (PDict (memory_data w data metadata)).
Proof.
  intros Hdata Hmeta. constructor. intros k v. unfold memory_data.
  rewrite !lookup_insert, lookup_empty.
  repeat case_decide; intros [= <-]; done || constructor.
Qed.

(** C9, as the code has it.  When the bank runs on its in-process store
    (no client yet and the Redis server not reachable), or when the Redis
    server is reachable and the payload and the metadata are values that
    JSON carries faithfully, [retrieve_memory] right after [store_memory]
    returns the envelope that was stored: its [data] is the payload, and
    beside it there are only the metadata and the timestamp. *)
Theorem store_then_retrieve (key : string) (data : pyval)
    (metadata : option pydict) (w : World) (self : t) :
  (redis_client self = false /\ redis_up w = false)
  \/ (redis_up w = true /\ json_faithful data
      /\ json_faithful (PDict (metadata_or_empty metadata))) ->
  let stored := store_memory key data metadata w self in
  exists envelope : pydict,
    (retrieve_memory key stored.1 stored.2).1 = Some (PDict envelope)
    /\ envelope !! "data" = Some data
    /\ envelope !! "metadata" = Some (PDict (metadata_or_empty metadata))
    /\ envelope !! "timestamp" = Some (PFloat (loop_time w))
    /\ dom envelope = {["data"; "metadata"; "timestamp"]}.
Proof.
  intros Hmode stored. exists (memory_data w data metadata).
  split; [|unfold memory_data; repeat split; by simplify_map_eq].
  subst stored. unfold store_memory, retrieve_memory, initialize.
  destruct Hmode as [[Hc Hup]|(Hup & Hdata & Hmeta)].
  - rewrite Hc, Hup. simpl. rewrite Hup. simpl. by rewrite lookup_insert_eq.
  - destruct (loads_dumps _ (memory_data_faithful w _ _ Hdata Hmeta))
      as (doc & Hdoc & Hload).
    assert (Hcl : redis_client (if redis_client self then self
                                else mk (redis_up w) (fallback_storage self)) = true).
    { by destruct (redis_client self) eqn:E. }
    rewrite Hcl, Hdoc, Hup. simpl.
    destruct (redis_client self) eqn:E; simpl; rewrite ?E; simpl;
      by rewrite lookup_insert_eq, Hload.
Qed.

End MemoryBankProperties.

(** ** The statements at concrete inputs *)

Section Examples.
Import Demo.
#[local] Existing Instance repr.

Lemma calculate_readability_blank :
  PyStr.split "   " = [] /\ DataAnalysisTool.calculate_readability "   " = 0%Q.
Proof.
  split; [reflexivity|].
  apply (calculate_readability_range "   "). reflexivity.
Defined.

Lemma research_failure_run :
  (coordinate_task task_data world
     (coordinator research_reports_failure writing_ok analysis_ok)).1 !! "error"
  = Some (PStr "Research phase failed")
  /\ (fun call => call.1)
       <$> cx_calls (coordinate_task task_data world
                       (coordinator research_reports_failure writing_ok analysis_ok)).2
     = [RESEARCH].
Proof.
  pose proof (research_not_completed_fails task_data world
                (coordinator research_reports_failure writing_ok analysis_ok)
                (<["status" := PStr "error"]>
                   (<["reason" := PStr "unknown_message_type"]> ∅))
                _ eq_refl eq_refl) as H.
  cbv zeta in H. destruct H as (_ & Herr & _ & _ & _ & _ & Hcalls).
  split; [exact Herr|]. rewrite Hcalls. reflexivity.
Defined.


Lemma writing_failure_run :
  (coordinate_task task_data world
     (coordinator research_ok writing_reports_failure analysis_ok)).1 !! "error"
  = Some (PStr "Writing phase failed")
  /\ (fun call => call.1)
       <$> cx_calls (coordinate_task task_data world
                       (coordinator research_ok writing_reports_failure analysis_ok)).2
     = [RESEARCH; WRITING].
Proof.
  pose proof (writing_not_completed_fails task_data world
                (coordinator research_ok writing_reports_failure analysis_ok)
                _ (PDict (<["content" := PStr "notes"]> ∅)) (PStr "notes") _
                (<["status" := PStr "error"]>
                   (<["reason" := PStr "unknown_message_type"]> ∅))
                _ eq_refl eq_refl eq_refl eq_refl eq_refl eq_refl) as H.
  cbv zeta in H. destruct H as (_ & Herr & _ & _ & _ & Hcalls).
  split; [exact Herr|]. rewrite Hcalls. reflexivity.
Defined.

Lemma writing_exception_run :
  (coordinate_task task_data world
     (coordinator research_ok writing_throws analysis_ok)).1 !! "error"
  = Some (PStr "quota exceeded").
Proof.
  apply (stage_exception_is_absorbed task_data world
           (coordinator research_ok writing_throws analysis_ok)
           (PyExn "RuntimeError" "quota exceeded")).
  eapply (writing_raises task_data world _ _
            (PDict (<["content" := PStr "notes"]> ∅)) (PStr "notes"));
    reflexivity.
Defined.

(** C7 (a defect of the code).  The task data built for a request with
    depth "basic" hold that depth, yet the mapping the Research stage
    receives has depth "comprehensive": the coordinator passes its own
    constant instead of the submitted value. *)
Theorem submitted_depth_not_forwarded :
  (create_research_task request world app).1.2 !! "depth" = Some "basic"
  /\ exists app2 cx rest,
       execute_research_task (create_research_task request world app).1.1
         (create_research_task request world app).1.2 world
         (create_research_task request world app).2 = Return (app2, cx)
       /\ cx_calls cx
          = (RESEARCH,
             research_input (uuid4 world) "Machine Learning Applications") :: rest
       /\ research_input (uuid4 world) "Machine Learning Applications" !! "depth"
          = Some (PStr "comprehensive").
Proof.
  split; [reflexivity|].
  destruct (execute_research_task_first_call request world world app)
    as (app2 & cx & rest & Hrun & Hcalls).
  exists app2, cx, rest. split; [exact Hrun|]. split; [exact Hcalls|reflexivity].
Qed.

(** [handle_task_update] moves a completed task back to pending. *)
Lemma task_update_rewinds_completed_task :
  task_status "test_integration_task" finished_coordinator
  = Some (status_val COMPLETED)
  /\ terminal COMPLETED = true
  /\ task_status "test_integration_task"
       (handle_task_update rewind_update finished_coordinator).2
     = Some (status_val PENDING)
  /\ forward COMPLETED PENDING = false.
Proof. repeat split; reflexivity. Qed.


Lemma research_sources_run :
  exists result : pydict,
    returned ∅ (ResearchAgent.execute_research
                  (<["topic" := PStr "AI"]> (<["task_id" := PStr "t1"]> ∅))
                  world research_agent_found).1.1 !! "result" = Some (PDict result)
    /\ result !! "sources"
       = Some (PList [PStr "https://a.example/1"; PStr "https://b.example/3"]).
Proof.
  set (run := ResearchAgent.execute_research
                (<["topic" := PStr "AI"]> (<["task_id" := PStr "t1"]> ∅))
                world research_agent_found).
  destruct (execute_research_sources
              (<["topic" := PStr "AI"]> (<["task_id" := PStr "t1"]> ∅))
              world run.1.2 research_agent_found run.2 (returned ∅ run.1.1))
    as (result & Hres & Hsrc).
  { reflexivity. }
  exists result. split; [exact Hres | exact Hsrc].
Defined.

Lemma writing_outcome_run :
  returned ∅ (WritingAgent.generate_content
                (<["research_content" := PStr "notes"]> ∅)
                world writing_agent).1.1 !! "status"
  = Some (PStr "completed").
Proof.
  eapply (returned_outcome_is_completed
            (<["research_content" := PStr "notes"]> ∅) world).
  left. exists writing_agent. eexists. reflexivity.
Defined.

Lemma store_then_retrieve_redis :
  exists envelope : pydict,
    (MemoryBank.retrieve_memory "content_article"
       (MemoryBank.store_memory "content_article" (PStr "text") None
          world_redis MemoryBank.init).1
       (MemoryBank.store_memory "content_article" (PStr "text") None
          world_redis MemoryBank.init).2).1 = Some (PDict envelope)
    /\ envelope !! "data" = Some (PStr "text").
Proof.
  destruct (store_then_retrieve "content_article" (PStr "text") None
              world_redis MemoryBank.init) as (envelope & Hget & Hdata & _).
  { right. split; [reflexivity|]. split; [constructor|].
    constructor. intros k v Hk. discriminate Hk. }
  exists envelope. split; [exact Hget | exact Hdata].
Defined.

(** With Redis in reach, a payload that [json.dumps] rejects is not
    stored at all: the retrieval that follows finds nothing. *)
Lemma unserializable_payload_is_lost :
  (MemoryBank.retrieve_memory "research_AI"
     (MemoryBank.store_memory "research_AI" payload_with_set None
        world_redis MemoryBank.init).1
     (MemoryBank.store_memory "research_AI" payload_with_set None
        world_redis MemoryBank.init).2).1 = None.
Proof. reflexivity. Qed.

(** The scenario of the integration test: the three workers without an
    API key bring the task to completion. *)
Lemma integration_task_completes :
  (coordinate_task task_data world (coordinator_agent app)).1 !! "status"
  = Some (status_val COMPLETED)
  /\ (coordinate_task task_data world (coordinator_agent app)).1 !! "timeline"
     = Some (PDict (<["research_completed" := PBool true]>
                      (<["writing_completed" := PBool true]>
                         (<["analysis_completed" := PBool true]> ∅))))
  /\ (fun call => call.1)
       <$> cx_calls (coordinate_task task_data world (coordinator_agent app)).2
     = [RESEARCH; WRITING; ANALYSIS].
Proof. vm_compute. repeat split; reflexivity. Qed.

End Examples.

(** * Further properties of the code *)

(** ** More on the memory bank (src/memory/memory_bank.py) *)

Section MemoryBankMore.
Import MemoryBank.

Lemma memory_key_inj (key key' : string) :
  memory_key key = memory_key key' -> key = key'.
Proof. unfold memory_key. simpl. by intros [= ?]. Qed.

(** X1. Storing under one key does not change what is retrieved under
    another key, whatever the backend and whatever the payload. *)
Theorem store_memory_other_key (key key' : string) (data : pyval)
    (metadata : option pydict) (w : World) (self : t) :
  key <> key' ->
  (retrieve_memory key'
     (store_memory key data metadata w self).1
     (store_memory key data metadata w self).2).1
  = (retrieve_memory key' w self).1.
Proof.
  intros Hne.
  assert (Hk : memory_key key <> memory_key key')
    by (intros Heq; by apply Hne, memory_key_inj).
  unfold store_memory, retrieve_memory, initialize.
  generalize (dumps (PDict (memory_data w data metadata))). intros doc.
  destruct (redis_client self) eqn:Hc, (redis_up w) eqn:Hup, doc as [doc|];
    cbn [redis_client fallback_storage redis_up redis_kv fst snd];
    rewrite ?Hc, ?Hup; cbn [redis_client fallback_storage redis_up redis_kv fst snd];
    rewrite ?Hc, ?Hup; try done; by rewrite lookup_insert_ne.
Qed.


Lemma size_omap_le {A B} (f : A -> option B) (m : gmap string A) :
  (size (omap f m) <= size m)%nat.
Proof.
  pose proof (dom_omap_subseteq (D := gset string) f m) as Hsub.
  apply subseteq_size in Hsub. by rewrite !size_dom in Hsub.
Qed.

Lemma size_omap_lt {A B} (f : A -> option B) (m : gmap string A) k v :
  m !! k = Some v -> f v = None -> (size (omap f m) < size m)%nat.
Proof.
  intros Hk Hf.
  assert (Heq : omap f m = omap f (delete k m)).
  { apply map_eq. intros i. rewrite !lookup_omap.
    destruct (decide (i = k)) as [->|Hne].
    - by rewrite lookup_delete_eq, Hk; simpl.
    - by rewrite lookup_delete_ne. }
  rewrite Heq. eapply Nat.le_lt_trans; [apply size_omap_le|].
  rewrite map_size_delete, Hk. pose proof (map_size_ne_0_lookup_2 m k) as Hs.
  assert (size m <> 0%nat) by (apply Hs; eauto). lia.
Qed.

(** An envelope whose payload [json.dumps] rejects is rejected. *)
Lemma dumps_envelope_rejected (w : World) (data : pyval) (metadata : option pydict) :
  dumps data = None -> dumps (PDict (memory_data w data metadata)) = None.
Proof.
  intros Hd. rewrite dumps_dict. rewrite decide_False; [done|].
  apply Nat.lt_neq, (size_omap_lt dumps _ "data" data); [|done].
  unfold memory_data. by rewrite lookup_insert_eq.
Qed.

(** X2. With Redis in reach, a store whose payload [json.dumps] rejects
    changes nothing: the server keeps what it had, and every key is
    retrieved as before the store; in particular a value stored earlier
    under the same key is still the one returned. *)
Theorem rejected_store_changes_nothing (key : string) (data : pyval)
    (metadata : option pydict) (w : World) (self : t) :
  redis_up w = true ->
  dumps data = None ->
  (store_memory key data metadata w self).1 = w
  /\ forall key',
       (retrieve_memory key'
          (store_memory key data metadata w self).1
          (store_memory key data metadata w self).2).1
       = (retrieve_memory key' w self).1.
Proof.
  intros Hup Hd. unfold store_memory, retrieve_memory, initialize.
  rewrite (dumps_envelope_rejected w data metadata Hd).
  destruct (redis_client self) eqn:Hc;
    cbn [redis_client fallback_storage fst snd]; rewrite ?Hc, ?Hup;
    cbn [redis_client fallback_storage fst snd]; rewrite ?Hc, ?Hup; by split.
Qed.

Lemma lookup_foldl_delete {A} (l : list string) (m : gmap string A) (k : string) :
  foldl (fun storage key => delete key storage) m l !! k
  = if decide (k ∈ l) then None else m !! k.
Proof.
  revert m. induction l as [|i l IH]; intros m; cbn [foldl].
  - destruct (decide (k ∈ [])) as [Hin|_]; [set_solver | done].
  - rewrite IH.
    destruct (decide (k ∈ l)) as [Hl|Hl].
    + destruct (decide (k ∈ i :: l)) as [_|Hil]; [done|].
      exfalso. apply Hil. by right.
    + destruct (decide (k = i)) as [->|Hne].
      * rewrite lookup_delete_eq.
        destruct (decide (i ∈ i :: l)) as [_|Hil]; [done|].
        exfalso. apply Hil. by left.
      * rewrite lookup_delete_ne by done.
        destruct (decide (k ∈ i :: l)) as [Hil|_]; [|done].
        apply elem_of_cons in Hil as [?|?]; done.
Qed.

(** Deleting the keys selected by a filter leaves the entries the filter
    rejects. *)
Lemma foldl_delete_filter {A} (P : string * A -> Prop) `{!forall x, Decision (P x)}
    (m : gmap string A) (k : string) :
  foldl (fun storage key => delete key storage) m (map_to_list (filter P m)).*1 !! k
  = match m !! k with
    | Some v => if decide (P (k, v)) then None else Some v
    | None => None
    end.
Proof.
  rewrite lookup_foldl_delete.
  destruct (m !! k) as [v|] eqn:Hk.
  - destruct (decide (P (k, v))) as [HP|HP].
    + rewrite decide_True; [done|].
      apply list_elem_of_fmap. exists (k, v). split; [done|].
      apply elem_of_map_to_list, map_lookup_filter_Some. done.
    + rewrite decide_False; [done|].
      intros ((k' & v') & -> & Hin)%list_elem_of_fmap.
      apply elem_of_map_to_list, map_lookup_filter_Some in Hin as [Hin HP'].
      simpl in *. rewrite Hk in Hin. injection Hin as <-. done.
  - rewrite decide_False; [done|].
    intros ((k' & v') & -> & Hin)%list_elem_of_fmap.
    apply elem_of_map_to_list, map_lookup_filter_Some in Hin as [Hin _].
    simpl in *. congruence.
Qed.

(** X3. Provided every entry of the in-process store carries a numeric
    timestamp (or none), [clear_old_memories] succeeds; without a Redis
    client it removes exactly the entries whose timestamp is more than
    [older_than_seconds] behind the clock and keeps every other entry as
    it is, and with a Redis client it changes nothing.  The entries left
    still carry their timestamps. *)
Theorem clear_old_memories_spec (older_than_seconds : Z) (w : World) (self : t) :
  map_Forall (fun _ value => is_Some (timestamp_of value)) (fallback_storage self) ->
  exists self',
    clear_old_memories older_than_seconds w self = Some self'
    /\ (forall key,
          fallback_storage self' !! key
          = match fallback_storage self !! key with
            | Some value =>
                if redis_client self' then Some value
                else if is_old (loop_time w) older_than_seconds value then None
                     else Some value
            | None => None
            end)
    /\ map_Forall (fun _ value => is_Some (timestamp_of value))
         (fallback_storage self').
Proof.
  intros Hts. unfold clear_old_memories.
  assert (Hfs : fallback_storage (initialize w self) = fallback_storage self).
  { unfold initialize. by destruct (redis_client self). }
  destruct (redis_client (initialize w self)) eqn:Hc.
  - exists (initialize w self). split; [done|]. split; [|by rewrite Hfs].
    intros key. rewrite Hc, Hfs. by destruct (fallback_storage self !! key).
  - rewrite decide_True; [|by rewrite Hfs].
    eexists. split; [done|]. cbn [fallback_storage redis_client]. split.
    + intros key. rewrite foldl_delete_filter, Hfs.
      destruct (fallback_storage self !! key) as [value|]; [|done].
      cbn [snd]. by destruct (is_old _ _ value).
    + intros key value. rewrite foldl_delete_filter, Hfs.
      destruct (fallback_storage self !! key) as [value'|] eqn:Hk; [|done].
      case_decide; [done|]. intros [= <-]. by apply (Hts key).
Qed.

(** X4. Every entry [store_memory] writes into the in-process store is
    an envelope stamped with the clock of the event loop: a store keeps
    the condition under which [clear_old_memories] succeeds (every entry
    with a numeric timestamp), whatever the key, the payload and the
    backend. *)
Theorem stored_entries_have_timestamps (key : string) (data : pyval)
    (metadata : option pydict) (w : World) (self : t) :
  map_Forall (fun _ value => is_Some (timestamp_of value)) (fallback_storage self) ->
  map_Forall (fun _ value => is_Some (timestamp_of value))
    (fallback_storage (store_memory key data metadata w self).2)
  /\ timestamp_of (PDict (memory_data w data metadata)) = Some (loop_time w).
Proof.
  intros Hts.
  assert (Hnew : timestamp_of (PDict (memory_data w data metadata))
                 = Some (loop_time w)).
  { unfold timestamp_of, memory_data. by simplify_map_eq. }
  split; [|done].
  unfold store_memory, initialize.
  destruct (redis_client self) eqn:Hc; cbn [redis_client fallback_storage];
    rewrite ?Hc.
  - by destruct (dumps _), (redis_up w).
  - destruct (redis_up w); cbn [redis_client fallback_storage snd].
    + by destruct (dumps _).
    + apply map_Forall_insert_2; [|done]. by rewrite Hnew.
Qed.

(** X5. On the in-process store (no client, server out of reach) the
    count of memories grows by one with a store under a new key and stays
    the same with a store under a key already present. *)
Theorem total_memories_after_store (key : string) (data : pyval)
    (metadata : option pydict) (w : World) (self : t) :
  redis_client self = false ->
  redis_up w = false ->
  (total_memories (store_memory key data metadata w self).1
                  (store_memory key data metadata w self).2).1
  = match fallback_storage self !! memory_key key with
    | Some _ => (total_memories w self).1
    | None => S (total_memories w self).1
    end.
Proof.
  intros Hc Hup. unfold total_memories, store_memory, initialize.
  rewrite Hc, Hup. cbn [redis_client fallback_storage fst snd]. rewrite Hup.
  cbn [redis_client fallback_storage fst snd].
  destruct (fallback_storage self !! memory_key key) as [old|] eqn:Hk.
  - rewrite map_size_insert_Some; [done | by rewrite Hk].
  - by rewrite map_size_insert_None.
Qed.

End MemoryBankMore.

(** ** Sessions (src/memory/session_manager.py) *)

Section SessionProperties.

(** X6. [update_state] followed by [get_state] of the same key returns
    the value written; the other keys, the identity, the creation time and
    the context of the session are unchanged, and the history grows by
    exactly one "state_update" entry that records the key and the
    value. *)
Theorem update_state_get_state (key : string) (value : pyval) (w : World)
    (session : Session.t) :
  let updated := Session.update_state key value w session in
  Session.get_state key updated = Some value
  /\ (forall key', key' <> key ->
        Session.get_state key' updated = Session.get_state key' session)
  /\ Session.session_id updated = Session.session_id session
  /\ Session.created_at updated = Session.created_at session
  /\ Session.context updated = Session.context session
  /\ exists entry,
       Session.get_full_history updated = Session.get_full_history session ++ [entry]
       /\ entry !! "action" = Some (PStr "state_update")
       /\ entry !! "key" = Some (PStr key)
       /\ entry !! "value" = Some value.
Proof.
  intros updated. subst updated. unfold Session.get_state, Session.update_state.
  cbn. split; [by rewrite lookup_insert_eq|].
  split; [by intros key' Hne; rewrite lookup_insert_ne|].
  repeat (split; [done|]).
  eexists. split; [done|]. by simplify_map_eq.
Qed.

(** X7. [create_session] registers an empty session under the id it
    returns (the given id, or a fresh uuid when the id is empty); a
    session already registered under that id is replaced, its state and
    history gone; the sessions under other ids are untouched. *)
Theorem create_session_registers (session_id : string) (w : World)
    (self : SessionManager.t) :
  let sid := (SessionManager.create_session session_id w self).1 in
  let self' := (SessionManager.create_session session_id w self).2 in
  sid = (if decide (session_id = EmptyString) then uuid4 w else session_id)
  /\ (exists session,
        SessionManager.get_session sid self' = Some session
        /\ Session.session_id session = sid
        /\ Session.state session = ∅
        /\ Session.history session = []
        /\ Session.context session = ∅)
  /\ forall other, other <> sid ->
       SessionManager.get_session other self' = SessionManager.get_session other self.
Proof.
  intros sid self'. subst sid self'.
  unfold SessionManager.create_session, SessionManager.get_session. cbn [fst snd].
  split; [done|]. split.
  - eexists. split; [apply lookup_insert_eq|]. done.
  - intros other Hne. cbn. by rewrite lookup_insert_ne.
Qed.

Lemma end_session_lookup (session_id other : string) (self : SessionManager.t) :
  SessionManager.get_session other (SessionManager.end_session session_id self)
  = if decide (other = session_id) then None
    else SessionManager.get_session other self.
Proof.
  unfold SessionManager.end_session, SessionManager.get_session.
  destruct (SessionManager.sessions self !! session_id) eqn:Hs; cbn.
  - case_decide as Heq; [subst; apply lookup_delete_eq|].
    by rewrite lookup_delete_ne.
  - case_decide as Heq; [by subst|done].
Qed.

(** X8. [end_session] removes the session of the given id and no other;
    for an id that is not registered it leaves the manager as it is. *)
Theorem end_session_removes (session_id : string) (self : SessionManager.t) :
  SessionManager.get_session session_id
    (SessionManager.end_session session_id self) = None
  /\ (forall other, other <> session_id ->
        SessionManager.get_session other (SessionManager.end_session session_id self)
        = SessionManager.get_session other self)
  /\ (SessionManager.get_session session_id self = None ->
        SessionManager.end_session session_id self = self).
Proof.
  split; [|split].
  - rewrite end_session_lookup. by rewrite decide_True.
  - intros other Hne. rewrite end_session_lookup. by rewrite decide_False.
  - unfold SessionManager.get_session, SessionManager.end_session. by intros ->.
Qed.

Lemma foldl_end_session_lookup (l : list string) (other : string)
    (self : SessionManager.t) :
  SessionManager.get_session other
    (foldl (fun self session_id => SessionManager.end_session session_id self) self l)
  = if decide (other ∈ l) then None else SessionManager.get_session other self.
Proof.
  revert self. induction l as [|i l IH]; intros self; cbn [foldl].
  - destruct (decide (other ∈ [])) as [Hin|_]; [set_solver | done].
  - rewrite IH, end_session_lookup.
    destruct (decide (other ∈ l)) as [Hl|Hl].
    + destruct (decide (other ∈ i :: l)) as [_|Hil]; [done|].
      exfalso. apply Hil. by right.
    + destruct (decide (other = i)) as [->|Hne].
      * destruct (decide (i ∈ i :: l)) as [_|Hil]; [done|].
        exfalso. apply Hil. by left.
      * destruct (decide (other ∈ i :: l)) as [Hil|_]; [|done].
        apply elem_of_cons in Hil as [?|?]; done.
Qed.

(** X9. [cleanup_old_sessions] ends exactly the sessions whose last update
    lies more than [max_age_seconds] before the current time: those are
    gone afterwards and every other session is still registered,
    unchanged. *)
Theorem cleanup_old_sessions_spec (max_age_seconds : Z) (w : World)
    (self : SessionManager.t) (session_id : string) :
  SessionManager.get_session session_id
    (SessionManager.cleanup_old_sessions max_age_seconds w self)
  = match SessionManager.get_session session_id self with
    | Some session =>
        if SessionManager.is_expired (wall_time w) max_age_seconds session
        then None else Some session
    | None => None
    end.
Proof.
  unfold SessionManager.cleanup_old_sessions.
  rewrite foldl_end_session_lookup. unfold SessionManager.get_session.
  destruct (SessionManager.sessions self !! session_id) as [session|] eqn:Hs.
  - destruct (SessionManager.is_expired _ _ session) eqn:Hex.
    + rewrite decide_True; [done|].
      apply list_elem_of_fmap. exists (session_id, session). split; [done|].
      apply elem_of_map_to_list, map_lookup_filter_Some. split; [done|].
      cbn. by rewrite Hex.
    + rewrite decide_False; [done|].
      intros ((k' & v') & -> & Hin)%list_elem_of_fmap.
      apply elem_of_map_to_list, map_lookup_filter_Some in Hin as [Hin HP].
      cbn in *. rewrite Hs in Hin. injection Hin as <-. by rewrite Hex in HP.
  - rewrite decide_False; [done|].
    intros ((k' & v') & -> & Hin)%list_elem_of_fmap.
    apply elem_of_map_to_list, map_lookup_filter_Some in Hin as [Hin _].
    cbn in *. congruence.
Qed.

End SessionProperties.

(** ** More on the coordinator (src/agents/coordinator_agent.py) *)

Section CoordinatorMore.

Context {RA WA AA : Type} `{!Agent RA, !Agent WA, !Agent AA}.

Implicit Types (self : CoordinatorAgent RA WA AA) (cx : Ctx RA WA AA).
Implicit Types (task_data : gmap string string) (w : World).

(** When the [try] block ends normally, its result is returned and
    recorded. *)
Lemma coordinate_task_return task_data w self final cx :
  pipeline (task_id_of self task_data) (topic_of task_data)
    (content_type_of task_data) task_data (start_ctx task_data w self)
  = (Return final, cx) ->
  same_books (start_ctx task_data w self) cx ->
  (coordinate_task task_data w self).1 = final
  /\ task_status (task_id_of self task_data)
       (cx_self (coordinate_task task_data w self).2)
     = Some (status_val COMPLETED)
  /\ cx_calls (coordinate_task task_data w self).2 = cx_calls cx
  /\ (SessionManager.get_session (begin_task task_data w self).1
        (session_manager (cx_self (coordinate_task task_data w self).2))
      ≫= Session.get_state "completed")
     = Some (PDict final).
Proof.
  intros Hp [Hat Hsm]. unfold coordinate_task. rewrite Hp.
  split; [done|]. split; [|split].
  - rewrite finish_task_status; [done|]. rewrite Hat. apply start_ctx_record.
  - apply finish_task_calls.
  - erewrite finish_task_session.
    2:{ rewrite Hsm. apply begin_task_session. }
    simpl. unfold Session.get_state. simpl. by rewrite lookup_insert_eq.
Qed.

(** The [try] block when all three stages deliver. *)
Lemma pipeline_success task_id topic content_type task_data cx
    research_result research research_content cx0
    writing_result content cx1 analysis_result analysis cx2 :
  call_research (research_input task_id topic) cx = (Return research_result, cx0) ->
  status_is_completed research_result = true ->
  dict_getitem research_result "result" = Return research ->
  getitem research "content" = Return research_content ->
  call_writing (writing_input research_content content_type task_data) cx0
  = (Return writing_result, cx1) ->
  status_is_completed writing_result = true ->
  dict_getitem writing_result "content" = Return content ->
  call_analysis (analysis_input content) cx1 = (Return analysis_result, cx2) ->
  dict_getitem analysis_result "analysis_report" = Return analysis ->
  pipeline task_id topic content_type task_data cx
  = (Return (final_result task_id research content analysis), cx2)
  /\ same_books cx cx2
  /\ cx_calls cx2
     = cx_calls cx
       ++ [(RESEARCH, research_input task_id topic);
           (WRITING, writing_input research_content content_type task_data);
           (ANALYSIS, analysis_input content)].
Proof.
  intros Hr Hrs Hres Hrc Hw Hws Hcont Ha Hrep.
  destruct (call_research_inv _ _ _ _ Hr) as [Hc0 Hb0].
  destruct (call_writing_inv _ _ _ _ Hw) as [Hc1 Hb1].
  destruct (call_analysis_inv _ _ _ _ Ha) as [Hc2 Hb2].
  split; [|split].
  - unfold pipeline, research_step, bind at 1 2. rewrite Hr.
    unfold bind at 1 2, check_completed. rewrite Hrs. unfold ret at 1.
    unfold bind at 1 2, lift. rewrite Hres, Hrc. unfold ret at 1.
    unfold writing_step, bind at 1 2. rewrite Hw.
    unfold bind at 1, check_completed. rewrite Hws. unfold ret at 1, lift.
    rewrite Hcont. unfold analysis_step, bind. rewrite Ha. unfold lift.
    by rewrite Hrep.
  - eauto using same_books_trans.
  - rewrite Hc2, Hc1, Hc0, <- !app_assoc. done.
Qed.

(** X10. The way of the data through a successful coordination.  When
    research returns a completed outcome, writing (called with the
    research content) returns a completed outcome and analysis (called
    with the written content) returns an outcome with an analysis
    report, the task is completed: the result carries the research
    payload, the written content and the analysis report as the stages
    returned them, with all three timeline flags set; it is mirrored
    into the session, and the three stages were called once each, in
    order.  The status of the analysis outcome is not looked at. *)
Theorem coordinate_task_success task_data w self
    research_result research research_content cx0
    writing_result content cx1 analysis_result analysis cx2 :
  call_research (research_input (task_id_of self task_data) (topic_of task_data))
    (start_ctx task_data w self) = (Return research_result, cx0) ->
  status_is_completed research_result = true ->
  dict_getitem research_result "result" = Return research ->
  getitem research "content" = Return research_content ->
  call_writing
    (writing_input research_content (content_type_of task_data) task_data) cx0
  = (Return writing_result, cx1) ->
  status_is_completed writing_result = true ->
  dict_getitem writing_result "content" = Return content ->
  call_analysis (analysis_input content) cx1 = (Return analysis_result, cx2) ->
  dict_getitem analysis_result "analysis_report" = Return analysis ->
  let run := coordinate_task task_data w self in
  run.1 = final_result (task_id_of self task_data) research content analysis
  /\ run.1 !! "status" = Some (status_val COMPLETED)
  /\ run.1 !! "research" = Some research
  /\ run.1 !! "content" = Some content
  /\ run.1 !! "analysis" = Some analysis
  /\ task_status (task_id_of self task_data) (cx_self run.2)
     = Some (status_val COMPLETED)
  /\ (SessionManager.get_session (begin_task task_data w self).1
        (session_manager (cx_self run.2))
      ≫= Session.get_state "completed")
     = Some (PDict run.1)
  /\ cx_calls run.2
     = [(RESEARCH, research_input (task_id_of self task_data) (topic_of task_data));
        (WRITING, writing_input research_content (content_type_of task_data) task_data);
        (ANALYSIS, analysis_input content)].
Proof.
  intros Hr Hrs Hres Hrc Hw Hws Hcont Ha Hrep run.
  destruct (pipeline_success _ _ _ _ _ _ _ _ _ _ _ _ _ _ _
              Hr Hrs Hres Hrc Hw Hws Hcont Ha Hrep) as (Hp & Hb & Hcalls).
  destruct (coordinate_task_return _ _ _ _ _ Hp Hb) as (Hout & Hts & Hc & Hse).
  subst run. rewrite Hse, Hout, Hc, Hcalls. unfold final_result.
  repeat split; try done; by simplify_map_eq.
Qed.

(** X11. A research outcome that says "completed" but has no [result]
    entry makes the task fail with the text of the [KeyError], and the
    Writing stage is not called. *)
Theorem research_without_result_fails task_data w self research_result cx :
  call_research (research_input (task_id_of self task_data) (topic_of task_data))
    (start_ctx task_data w self) = (Return research_result, cx) ->
  status_is_completed research_result = true ->
  research_result !! "result" = None ->
  let run := coordinate_task task_data w self in
  run.1 !! "status" = Some (status_val FAILED)
  /\ run.1 !! "error" = Some (PStr "'result'")
  /\ task_status (task_id_of self task_data) (cx_self run.2)
     = Some (status_val FAILED)
  /\ cx_calls run.2
     = [(RESEARCH, research_input (task_id_of self task_data) (topic_of task_data))].
Proof.
  intros Hr Hrs Hnone run.
  destruct (call_research_inv _ _ _ _ Hr) as [Hc0 Hb0].
  assert (Hp : pipeline (task_id_of self task_data) (topic_of task_data)
                 (content_type_of task_data) task_data (start_ctx task_data w self)
               = (Raise (KeyError "result"), cx)).
  { unfold pipeline, research_step, bind at 1 2. rewrite Hr.
    unfold bind at 1 2, check_completed. rewrite Hrs. unfold ret at 1.
    unfold bind, lift, dict_getitem. by rewrite Hnone. }
  destruct (coordinate_task_raise _ _ _ _ _ Hp Hb0) as (Hout & Hts & Hc & _).
  subst run. rewrite Hout, Hc, Hc0. unfold failed_result.
  repeat split; try done; by simplify_map_eq.
Qed.

Lemma coordinate_task_frame task_data w self other :
  other <> task_id_of self task_data ->
  active_tasks (cx_self (coordinate_task task_data w self).2) !! other
  = active_tasks self !! other.
Proof.
  intros Hne. unfold coordinate_task.
  destruct (pipeline _ _ _ _ _) as [o cx] eqn:Hp.
  apply pipeline_inv in Hp as ([Hat _] & _ & _).
  assert (Hstart : active_tasks (cx_self (start_ctx task_data w self)) !! other
                   = active_tasks self !! other).
  { unfold start_ctx, begin_task. cbn. by rewrite lookup_insert_ne. }
  destruct o; cbn; rewrite lookup_alter_ne by done; by rewrite Hat.
Qed.

(** X12. A coordination touches the record and the session of its own
    task only: the records of all other tasks and the sessions under all
    other ids are what they were before. *)
Theorem coordinate_task_other_tasks task_data w self :
  (forall other, other <> task_id_of self task_data ->
     active_tasks (cx_self (coordinate_task task_data w self).2) !! other
     = active_tasks self !! other)
  /\ (forall other, other <> (begin_task task_data w self).1 ->
        SessionManager.get_session other
          (session_manager (cx_self (coordinate_task task_data w self).2))
        = SessionManager.get_session other (session_manager self)).
Proof.
  split; [intros other; apply coordinate_task_frame|].
  intros other Hne. unfold coordinate_task.
  destruct (pipeline _ _ _ _ _) as [o cx] eqn:Hp.
  apply pipeline_inv in Hp as ([_ Hsm] & _ & _).
  assert (Hstart : SessionManager.get_session other
                     (session_manager (cx_self (start_ctx task_data w self)))
                   = SessionManager.get_session other (session_manager self)).
  { revert Hne. unfold start_ctx, begin_task, SessionManager.get_session. cbn.
    intros Hne. by rewrite lookup_insert_ne. }
  unfold SessionManager.get_session in *.
  destruct o; cbn; rewrite lookup_alter_ne by done; by rewrite Hsm.
Qed.

End CoordinatorMore.

Section Metrics.

Context {RA WA AA : Type} `{!Agent RA, !Agent WA, !Agent AA}.

Implicit Types (self : CoordinatorAgent RA WA AA).

Lemma ratio_bounds (c m : nat) :
  (c <= m)%nat -> (0 < m)%nat ->
  (0 <= PyFloat.of_nat c / PyFloat.of_nat m <= 1)%Q.
Proof.
  intros Hc Hm. unfold PyFloat.of_nat.
  assert (Hpos : (0 < inject_Z (Z.of_nat m))%Q).
  { change 0%Q with (inject_Z 0). rewrite <- Zlt_Qlt. lia. }
  split.
  - apply Qle_shift_div_l; [done|]. rewrite Qmult_0_l.
    change 0%Q with (inject_Z 0). rewrite <- Zle_Qle. lia.
  - apply Qle_shift_div_r; [done|]. rewrite Qmult_1_l.
    rewrite <- Zle_Qle. lia.
Qed.

Lemma counts_le (m : gmap string pydict) :
  (size (filter (fun kv => Is_true (counted_as COMPLETED kv.2)) m)
   + size (filter (fun kv => Is_true (counted_as FAILED kv.2)) m)
   <= size m)%nat.
Proof.
  induction m as [|i x m Hi _ IH] using map_first_key_ind.
  - by rewrite !map_filter_empty, map_size_empty.
  - rewrite !map_filter_insert, map_size_insert_None by done.
    rewrite !(delete_id m i) by done. cbn [snd].
    assert (Hex : ~ (Is_true (counted_as COMPLETED x) /\ Is_true (counted_as FAILED x))).
    { unfold counted_as. destruct (x !! "status") as [[]|]; cbn; try tauto.
      repeat case_bool_decide; subst; cbn; try tauto. done. }
    repeat case_decide;
      rewrite ?map_size_insert_None by (by apply map_lookup_filter_None_2; left);
      try tauto; lia.
Qed.


Lemma counts_eq (m : gmap string pydict) :
  (forall i x, m !! i = Some x ->
     exists s, terminal s = true /\ x !! "status" = Some (status_val s)) ->
  (size (filter (fun kv => Is_true (counted_as COMPLETED kv.2)) m)
   + size (filter (fun kv => Is_true (counted_as FAILED kv.2)) m)
   = size m)%nat.
Proof.
  induction m as [|i x m Hi _ IH] using map_first_key_ind; intros Hall.
  - by rewrite !map_filter_empty, map_size_empty.
  - rewrite !map_filter_insert, map_size_insert_None by done.
    rewrite !(delete_id m i) by done. cbn [snd].
    assert (IH' : (size (filter (fun kv => Is_true (counted_as COMPLETED kv.2)) m)
                   + size (filter (fun kv => Is_true (counted_as FAILED kv.2)) m)
                   = size m)%nat).
    { apply IH. intros j y Hj. apply (Hall j y).
      rewrite lookup_insert_ne; [done|]. intros ->. congruence. }
    destruct (Hall i x) as (s & Hs & Hx); [by rewrite lookup_insert_eq|].
    assert (HC : counted_as COMPLETED x
                 = match s with COMPLETED => true | _ => false end)
      by (unfold counted_as; rewrite Hx; by destruct s).
    assert (HF : counted_as FAILED x
                 = match s with FAILED => true | _ => false end)
      by (unfold counted_as; rewrite Hx; by destruct s).
    rewrite HC, HF.
    destruct s; try discriminate; repeat case_decide; try done;
      rewrite ?map_size_insert_None by (by apply map_lookup_filter_None_2; left);
      lia.
Qed.

(** X13. The figures of [get_system_metrics] hang together: the tasks
    counted completed and failed are at most the total, the success rate
    is the completed share of the total (of one task when there is none)
    and lies between 0 and 1, and the session count is the number of
    registered sessions.  When every task on record is terminal,
    completed and failed add up to the total. *)
Theorem get_system_metrics_consistent self :
  exists total completed failed : nat,
    get_system_metrics self !! "total_tasks" = Some (PInt (Z.of_nat total))
    /\ get_system_metrics self !! "completed_tasks" = Some (PInt (Z.of_nat completed))
    /\ get_system_metrics self !! "failed_tasks" = Some (PInt (Z.of_nat failed))
    /\ get_system_metrics self !! "success_rate"
       = Some (PFloat (PyFloat.of_nat completed
                       / PyFloat.of_nat (Nat.max total 1))%Q)
    /\ get_system_metrics self !! "active_sessions"
       = Some (PInt (Z.of_nat (size (SessionManager.sessions (session_manager self)))))
    /\ total = size (active_tasks self)
    /\ (completed + failed <= total)%nat
    /\ (0 <= PyFloat.of_nat completed / PyFloat.of_nat (Nat.max total 1) <= 1)%Q
    /\ (all_terminal self -> (completed + failed = total)%nat).
Proof.
  exists (size (active_tasks self)), (count_status COMPLETED self),
         (count_status FAILED self).
  assert (Hle : (count_status COMPLETED self + count_status FAILED self
                 <= size (active_tasks self))%nat)
    by exact (counts_le (active_tasks self)).
  unfold get_system_metrics.
  do 5 (split; [by simplify_map_eq|]).
  split; [done|]. split; [exact Hle|]. split.
  - apply ratio_bounds; lia.
  - intros Hall. by apply counts_eq.
Qed.

(** X14. A coordination leaves its own task in a terminal status and the
    other records alone, so a coordinator whose tasks were all terminal
    before still has only terminal tasks afterwards; a coordinator that
    starts without tasks and only runs coordinations therefore always
    reports completed plus failed equal to the total. *)
Theorem coordinate_task_keeps_all_terminal (task_data : gmap string string)
    (w : World) self :
  all_terminal self ->
  all_terminal (cx_self (coordinate_task task_data w self).2)
  /\ (count_status COMPLETED (cx_self (coordinate_task task_data w self).2)
      + count_status FAILED (cx_self (coordinate_task task_data w self).2)
      = size (active_tasks (cx_self (coordinate_task task_data w self).2)))%nat.
Proof.
  intros Hall.
  assert (Hall' : all_terminal (cx_self (coordinate_task task_data w self).2)).
  { intros task_id record Hrec.
    destruct (decide (task_id = task_id_of self task_data)) as [->|Hne].
    - destruct (coordinate_task_terminal task_data w self) as (s & Hs & _ & Hts).
      exists s. split; [done|]. unfold task_status in Hts.
      rewrite Hrec in Hts. exact Hts.
    - rewrite coordinate_task_frame in Hrec by done. by eapply Hall. }
  split; [done|]. by apply counts_eq.
Qed.

End Metrics.

(** ** More on the task registry (src/api/routes.py) *)

Section RoutesMore.

Context {RA WA AA : Type} `{!Agent RA, !Agent WA, !Agent AA}.

Implicit Types (app : App RA WA AA) (w : World).

(** X15. Polling.  Right after [create_research_task] the new id is
    answered with the pending record: status "pending", the request as
    submitted, the creation time and an empty result, and no other entry
    (in particular no [task_id]).  The answers for all other ids are
    unchanged, and an id the registry does not know is answered with the
    404 exception. *)
Theorem get_task_status_after_create (request : ResearchRequest.t) w app :
  (exists record,
     get_task_status (create_research_task request w app).1.1
       (create_research_task request w app).2 = Return record
     /\ record !! "status" = Some (PStr "pending")
     /\ record !! "request" = Some (PDict (ResearchRequest.dict request))
     /\ record !! "created_at" = Some (PStr (now_iso w))
     /\ record !! "result" = Some PNone
     /\ dom record = {["status"; "request"; "created_at"; "result"]})
  /\ (forall other, other <> (create_research_task request w app).1.1 ->
        get_task_status other (create_research_task request w app).2
        = get_task_status other app)
  /\ (forall id, registry app !! id = None ->
        get_task_status id app = Raise (PyExn "HTTPException" "404: Task not found")).
Proof.
  unfold create_research_task, get_task_status. cbn [fst snd registry].
  split; [|split].
  - rewrite lookup_insert_eq. eexists. split; [done|].
    do 4 (split; [by simplify_map_eq|]).
    rewrite !dom_insert_L, dom_empty_L. set_solver.
  - intros other Hne. by rewrite lookup_insert_ne.
  - by intros id ->.
Qed.

(** X16. [execute_research_task] on a registered task stores the outcome
    of the coordination in the record, under [result], with the status of
    that outcome and the completion time; every other entry of the record
    (the request, the creation time) and every other record stay as they
    were.  For an id that is not registered it raises [KeyError]. *)
Theorem execute_research_task_records (task_id : string)
    (task_data : gmap string string) w app :
  match registry app !! task_id with
  | Some record =>
      exists app2 cx record2 result,
        execute_research_task task_id task_data w app = Return (app2, cx)
        /\ (result, cx) = coordinate_task task_data w (coordinator_agent app)
        /\ registry app2 !! task_id = Some record2
        /\ record2 !! "result" = Some (PDict result)
        /\ record2 !! "status" = result !! "status"
        /\ record2 !! "completed_at" = Some (PStr (now_iso (cx_world cx)))
        /\ (forall k, k <> "status" -> k <> "result" -> k <> "completed_at" ->
              record2 !! k = record !! k)
        /\ (forall other, other <> task_id ->
              registry app2 !! other = registry app !! other)
        /\ coordinator_agent app2 = cx_self cx
  | None => execute_research_task task_id task_data w app = Raise (KeyError task_id)
  end.
Proof.
  destruct (registry app !! task_id) as [record|] eqn:Hrec.
  2:{ unfold execute_research_task, execute_research_task_run. by rewrite Hrec. }
  rewrite (execute_research_task_registered _ _ _ _ _ Hrec).
  destruct (coordinate_task_terminal task_data w (coordinator_agent app))
    as (s & _ & Hst & _).
  destruct (coordinate_task task_data w (coordinator_agent app))
    as [result cx] eqn:Hrun.
  cbn [fst snd] in Hst |- *.
  eexists _, cx, _, result. split; [done|]. split; [done|].
  unfold record_result, mark_in_progress. cbn [registry coordinator_agent].
  split; [by rewrite !lookup_alter_eq, Hrec|].
  split; [by simplify_map_eq|].
  split; [unfold dict_get; rewrite Hst; by simplify_map_eq|].
  split; [by simplify_map_eq|].
  split; [intros k ? ? ?; by simplify_map_eq|].
  split; [|done]. intros other Hne. by rewrite !lookup_alter_ne.
Qed.

End RoutesMore.

(** ** More on the stage workers (src/agents, src/tools/web_search.py) *)

Section StagesMore.
Context `{PyRepr}.

(** X17. [_extract_key_findings] returns between one and five findings.
    Either it is the stock sentence alone, or every finding is a line of
    the content, stripped, whose lower-case form contains one of the
    markers. *)
Theorem extract_key_findings_spec (content : string) :
  let findings := ResearchAgent._extract_key_findings content in
  (1 <= length findings <= 5)%nat
  /\ (findings = ["Analysis completed successfully"]
      \/ forall finding, finding ∈ findings ->
           exists line marker,
             line ∈ PyStr.split_on PyStr.newline content
             /\ finding = PyStr.strip line
             /\ marker ∈ ResearchAgent.markers
             /\ PyStr.contains marker (PyStr.lower line) = true).
Proof.
  intros findings. subst findings. unfold ResearchAgent._extract_key_findings.
  set (lines := PyStr.split_on PyStr.newline content).
  destruct (PyStr.strip <$> filter _ lines) as [|f fs] eqn:Hfs.
  - split; [simpl; lia | by left].
  - split.
    + rewrite length_take. cbn [length]. lia.
    + right. intros finding Hin. apply elem_of_take in Hin as (i & Hin & _).
      apply list_elem_of_lookup_2 in Hin. rewrite <- Hfs in Hin.
      apply list_elem_of_fmap in Hin as (line & -> & Hline).
      apply list_elem_of_filter in Hline as [Hm Hline].
      apply Is_true_true, existsb_exists in Hm as (marker & Hmk & Hc).
      exists line, marker. repeat split; try done. by apply list_elem_of_In.
Qed.

Lemma extract_key_findings_length (content : string) :
  (1 <= length (ResearchAgent._extract_key_findings content) <= 5)%nat.
Proof.
  unfold ResearchAgent._extract_key_findings.
  destruct (PyStr.strip <$> filter _ _) as [|f fs]; [simpl; lia|].
  rewrite length_take. cbn [length]. lia.
Qed.

(** X18. The Research stage returns exactly when the [task_id] it is
    given is a [str] (or absent); its outcome then has status
    "completed" and a result with that task id, with the model's answer
    and confidence 0.85, or else the fallback report and confidence 0.70,
    and with between one and five key findings.  For any other [task_id]
    it raises the validation error and leaves the world and its memory
    alone. *)
Theorem execute_research_outcome (research_data : pydict) (w : World)
    (self : ResearchAgent.t) :
  let topic := dict_get research_data "topic" (PStr EmptyString) in
  let search_results := ResearchAgent.web_search self topic 5%nat in
  match dict_get research_data "task_id" (PStr EmptyString) with
  | PStr task_id =>
      exists out result w' self' content findings,
        ResearchAgent.execute_research research_data w self = (Return out, w', self')
        /\ out !! "status" = Some (PStr "completed")
        /\ out !! "agent" = Some (PStr "research")
        /\ out !! "result" = Some (PDict result)
        /\ result !! "task_id" = Some (PStr task_id)
        /\ result !! "content" = Some (PStr content)
        /\ match ResearchAgent.model self with
           | Some (Return text) =>
               content = text
               /\ result !! "confidence_score" = Some (PFloat (17 # 20))
           | _ =>
               content = ResearchAgent._generate_fallback_research topic search_results
               /\ result !! "confidence_score" = Some (PFloat (7 # 10))
           end
        /\ result !! "key_findings" = Some (PList (PStr <$> findings))
        /\ (1 <= length findings <= 5)%nat
  | _ =>
      exists e,
        ResearchAgent.execute_research research_data w self = (Raise e, w, self)
        /\ exn_class e = "ValidationError"
  end.
Proof.
  intros topic search_results. unfold ResearchAgent.execute_research.
  fold topic. fold search_results.
  destruct (ResearchAgent.model self) as [[text|e]|];
    destruct (dict_get research_data "task_id" (PStr EmptyString)) as
      [| | | |task_id| | | |] eqn:Htid;
    cbv beta iota zeta delta [ResearchResult_dict];
    try (eexists; split; reflexivity);
    destruct (MemoryBank.store_memory _ _ _ _ _) as [w1 bank];
    eexists _, _, _, _, _, _; (split; [reflexivity|]);
    repeat split; try (by simplify_map_eq); apply extract_key_findings_length.
Qed.


Lemma store_retrieve_fallback (key : string) (data : pyval)
    (metadata : option pydict) (w : World) (bank : MemoryBank.t) :
  MemoryBank.redis_client bank = false ->
  redis_up w = false ->
  (MemoryBank.store_memory key data metadata w bank).1 = w
  /\ (MemoryBank.retrieve_memory key w
        (MemoryBank.store_memory key data metadata w bank).2).1
     = Some (PDict (MemoryBank.memory_data w data metadata)).
Proof.
  intros Hc Hup.
  unfold MemoryBank.store_memory, MemoryBank.retrieve_memory, MemoryBank.initialize.
  rewrite Hc, Hup. cbn [MemoryBank.redis_client MemoryBank.fallback_storage fst snd].
  rewrite ?Hup. cbn [MemoryBank.redis_client MemoryBank.fallback_storage fst snd].
  by rewrite lookup_insert_eq.
Qed.

(** X19. Each stage leaves its product in its own memory bank.  With the
    banks on their in-process store, after a stage has returned, the
    product is retrieved under the stage's key: the research result under
    "research_<topic>", the written content under
    "content_<content_type>", the analysis report under
    "analysis_<analysis_type>". *)
Theorem stage_product_is_remembered (input : pydict) (w w' : World) (out : pydict) :
  redis_up w = false ->
  (forall (self self' : ResearchAgent.t),
     MemoryBank.redis_client (ResearchAgent.memory_bank self) = false ->
     ResearchAgent.execute_research input w self = (Return out, w', self') ->
     exists envelope,
       (MemoryBank.retrieve_memory
          ("research_" +:+ format (dict_get input "topic" (PStr EmptyString)))
          w' (ResearchAgent.memory_bank self')).1 = Some (PDict envelope)
       /\ envelope !! "data" = out !! "result")
  /\ (forall (self self' : WritingAgent.t),
        MemoryBank.redis_client (WritingAgent.memory_bank self) = false ->
        WritingAgent.generate_content input w self = (Return out, w', self') ->
        exists envelope,
          (MemoryBank.retrieve_memory
             ("content_" +:+ format (dict_get input "content_type" (PStr "article")))
             w' (WritingAgent.memory_bank self')).1 = Some (PDict envelope)
          /\ envelope !! "data" = out !! "content")
  /\ (forall (self self' : AnalysisAgent.t),
        MemoryBank.redis_client (AnalysisAgent.memory_bank self) = false ->
        AnalysisAgent.analyze_content input w self = (Return out, w', self') ->
        exists envelope,
          (MemoryBank.retrieve_memory
             ("analysis_" +:+ format (dict_get input "analysis_type"
                                        (PStr "comprehensive")))
             w' (AnalysisAgent.memory_bank self')).1 = Some (PDict envelope)
          /\ envelope !! "data" = out !! "analysis_report").
Proof.
  intros Hup. split; [|split].
  - intros self self' Hc. unfold ResearchAgent.execute_research.
    destruct (match ResearchAgent.model self with
              | Some (Return text) => _ | _ => _ end) as [content confidence].
    destruct (ResearchResult_dict _ _ _ _ _) as [result|e]; [|done].
    match goal with
    | |- context [MemoryBank.store_memory ?k ?d ?m w ?b] =>
        destruct (store_retrieve_fallback k d m w b Hc Hup) as [Hw Hget];
        destruct (MemoryBank.store_memory k d m w b) as [w1 bank]
    end.
    cbn [fst snd] in Hw, Hget. subst w1. intros [= <- <- <-].
    eexists. split; [exact Hget|].
    unfold MemoryBank.memory_data. by simplify_map_eq.
  - intros self self' Hc. unfold WritingAgent.generate_content.
    destruct (match WritingAgent.model self with
              | Some (Return text) => _ | _ => _ end) as [draft|e]; [|done].
    match goal with
    | |- context [MemoryBank.store_memory ?k ?d ?m w ?b] =>
        destruct (store_retrieve_fallback k d m w b Hc Hup) as [Hw Hget];
        destruct (MemoryBank.store_memory k d m w b) as [w1 bank]
    end.
    cbn [fst snd] in Hw, Hget. subst w1. intros [= <- <- <-].
    eexists. split; [exact Hget|].
    unfold MemoryBank.memory_data. by simplify_map_eq.
  - intros self self' Hc. unfold AnalysisAgent.analyze_content.
    destruct (dict_get input "content" (PStr EmptyString)); try done.
    match goal with
    | |- context [MemoryBank.store_memory ?k ?d ?m w ?b] =>
        destruct (store_retrieve_fallback k d m w b Hc Hup) as [Hw Hget];
        destruct (MemoryBank.store_memory k d m w b) as [w1 bank]
    end.
    cbn [fst snd] in Hw, Hget. subst w1. intros [= <- <- <-].
    eexists. split; [exact Hget|].
    unfold MemoryBank.memory_data. by simplify_map_eq.
Qed.


(** X20. The Writing stage returns whenever the model answers; without
    an answer it returns exactly when the content type is a [str] and the
    research content can be sliced (a [str], a list or a tuple).  A
    returned outcome names the content type it was given and carries a
    [str] content; when the stage raises, the world and the stage's
    memory are as before. *)
Theorem generate_content_outcome (content_data : pydict) (w : World)
    (self : WritingAgent.t) :
  let research_content := dict_get content_data "research_content" (PStr EmptyString) in
  let content_type := dict_get content_data "content_type" (PStr "article") in
  let answered :=
    match WritingAgent.model self with Some (Return _) => true | _ => false end in
  let usable :=
    match content_type, research_content with
    | PStr _, (PStr _ | PList _ | PTuple _) => true
    | _, _ => false
    end in
  match WritingAgent.generate_content content_data w self with
  | (Return out, _, _) =>
      (answered || usable = true)
      /\ out !! "status" = Some (PStr "completed")
      /\ out !! "content_type" = Some content_type
      /\ exists text, out !! "content" = Some (PStr text)
  | (Raise e, w', self') =>
      (answered || usable = false)
      /\ w' = w /\ self' = self
      /\ (exn_class e = "AttributeError" \/ exn_class e = "TypeError")
  end.
Proof.
  intros research_content content_type answered usable.
  subst answered usable. unfold WritingAgent.generate_content.
  fold research_content. fold content_type.
  clearbody research_content content_type.
  unfold WritingAgent._generate_fallback_content, WritingAgent.excerpt_500.
  destruct (WritingAgent.model self) as [[text|e]|];
    destruct content_type, research_content; cbn [obind orb];
    first [ solve [repeat split; try done; ((by left) || (by right))]
          | destruct (MemoryBank.store_memory _ _ _ _ _) as [w1 bank];
            repeat split; try (by simplify_map_eq); eexists; by simplify_map_eq ].
Qed.

(** X21. The Analysis stage returns exactly when the content it is given
    is a [str] (or absent).  Its report then holds the sentiment of that
    text, a readability score between 0 and 1, the length of the text and
    a non-empty list of topics.  For any other content it raises
    [AttributeError] and leaves the world and its memory as they were. *)
Theorem analyze_content_outcome (analysis_data : pydict) (w : World)
    (self : AnalysisAgent.t) :
  match dict_get analysis_data "content" (PStr EmptyString) with
  | PStr text =>
      exists out report w' self' score topics,
        AnalysisAgent.analyze_content analysis_data w self = (Return out, w', self')
        /\ out !! "status" = Some (PStr "completed")
        /\ out !! "agent" = Some (PStr "analysis")
        /\ out !! "analysis_report" = Some (PDict report)
        /\ report !! "sentiment"
           = Some (PDict (SentimentAnalyzerTool.analyze_sentiment text))
        /\ report !! "readability_score" = Some (PFloat score)
        /\ (0 <= score <= 1)%Q
        /\ report !! "content_length" = Some (PInt (Z.of_nat (String.length text)))
        /\ report !! "key_topics" = Some (PList (PStr <$> topics))
        /\ topics <> []
  | v =>
      AnalysisAgent.analyze_content analysis_data w self
      = (Raise (AttributeError v "lower"), w, self)
  end.
Proof.
  unfold AnalysisAgent.analyze_content.
  destruct (dict_get analysis_data "content" (PStr EmptyString)) as
    [| | | |text| | | |]; try reflexivity.
  destruct (MemoryBank.store_memory _ _ _ _ _) as [w1 bank].
  eexists _, _, _, _, _, _. split; [reflexivity|].
  do 5 (split; [by simplify_map_eq|]).
  split.
  { unfold DataAnalysisTool.calculate_readability.
    destruct (PyStr.split text) as [|word words]; [split; discriminate|].
    match goal with |- context [PyFloat.round2 ?x] => set (v := x) end.
    destruct (round2_hundredths v) as (k & Hk & Heq);
      [subst v; apply clip01_bounds|].
    rewrite Heq. by apply hundredths_bounds. }
  do 2 (split; [by simplify_map_eq|]).
  unfold AnalysisAgent._extract_topics. by destruct (fst <$> filter _ _).
Qed.

(** X22. [_extract_topics] names a topic exactly when one of its keywords
    is among the lower-cased words of the content, in the order
    technology, business, health, education; when no keyword occurs the
    answer is "general" alone.  The answer is never empty. *)
Theorem extract_topics_spec (content : string) :
  let words := PyStr.split (PyStr.lower content) in
  let topics := AnalysisAgent._extract_topics content in
  topics <> []
  /\ (forall name keywords,
        (name, keywords) ∈ AnalysisAgent.topic_keywords ->
        name ∈ topics <-> exists keyword, keyword ∈ keywords /\ keyword ∈ words)
  /\ (topics = ["general"]
      \/ sublist topics ["technology"; "business"; "health"; "education"])
  /\ (topics = ["general"]
      <-> forall name keywords keyword,
            (name, keywords) ∈ AnalysisAgent.topic_keywords ->
            keyword ∈ keywords -> keyword ∉ words).
Proof.
  intros words topics. subst topics. unfold AnalysisAgent._extract_topics.
  fold words.
  set (found := filter (fun tk : string * list string =>
                          Exists (fun keyword => keyword ∈ words) tk.2)
                       AnalysisAgent.topic_keywords).
  assert (Hfound : forall name keywords,
            (name, keywords) ∈ AnalysisAgent.topic_keywords ->
            name ∈ (fst <$> found)
            <-> exists keyword, keyword ∈ keywords /\ keyword ∈ words).
  { intros name keywords Hin. split.
    - intros ((name' & kws') & Hn & Hf)%list_elem_of_fmap. cbn in Hn. subst name'.
      apply list_elem_of_filter in Hf as [Hex Hin'].
      assert (kws' = keywords) as ->.
      { clear -Hin Hin'. unfold AnalysisAgent.topic_keywords in *.
        repeat (apply elem_of_cons in Hin as [Hin|Hin];
                [repeat (apply elem_of_cons in Hin' as [Hin'|Hin'];
                         [congruence|]); by apply elem_of_nil in Hin'|]).
        by apply elem_of_nil in Hin. }
      apply Exists_exists in Hex as (kw & Hk & Hw). eauto.
    - intros (kw & Hk & Hw). apply list_elem_of_fmap. exists (name, keywords).
      split; [done|]. apply list_elem_of_filter. split; [|done].
      apply Exists_exists. eauto. }
  assert (Hsub : sublist (fst <$> found)
                   ["technology"; "business"; "health"; "education"]).
  { change ["technology"; "business"; "health"; "education"]
      with (fst <$> AnalysisAgent.topic_keywords).
    apply fmap_sublist, sublist_filter. }
  assert (Hgen : "general" ∉ (fst <$> found)).
  { intros Hg. eapply elem_of_sublist in Hg; [|exact Hsub].
    repeat (apply elem_of_cons in Hg as [Hg|Hg]; [discriminate|]).
    by apply elem_of_nil in Hg. }
  destruct (fst <$> found) as [|t ts] eqn:Hts.
  - split; [done|]. split; [|split; [by left|]].
    + intros name keywords Hin. rewrite <- (Hfound name keywords Hin).
      split; [|by intros ?%elem_of_nil].
      intros Hn. apply elem_of_cons in Hn as [->|Hn]; [|by apply elem_of_nil in Hn].
      exfalso. clear -Hin. unfold AnalysisAgent.topic_keywords in Hin.
      repeat (apply elem_of_cons in Hin as [Hin|Hin]; [discriminate|]).
      by apply elem_of_nil in Hin.
    + split; [|done]. intros _ name keywords keyword Hin Hk Hw.
      assert (name ∈ @nil string) as Habs by (apply (Hfound name keywords Hin); eauto).
      by apply elem_of_nil in Habs.
  - split; [done|]. split; [exact Hfound|]. split; [by right|].
    split.
    + intros Heq. exfalso. apply Hgen. rewrite Heq. by left.
    + intros Hnone. exfalso.
      assert (Ht : t ∈ t :: ts) by by left.
      rewrite <- Hts in Ht.
      apply list_elem_of_fmap in Ht as ((name & kws) & _ & Hf).
      apply list_elem_of_filter in Hf as [Hex Hin].
      apply Exists_exists in Hex as (kw & Hk & Hw).
      by apply (Hnone name kws kw).
Qed.


(** X23. The simulated search returns as many entries as asked for, the
    entry at position [i] with the url "https://example.com/research-"
    followed by [i + 1] and with a title, a snippet and a display url
    beside it.  So the Research stage built on it reports exactly five
    sources whenever it returns. *)
Theorem search_async_entries (query : pyval) (max_results : nat) :
  length (WebSearchTool.search_async query max_results) = max_results
  /\ (forall i, (i < max_results)%nat ->
        exists entry,
          WebSearchTool.search_async query max_results !! i = Some entry
          /\ entry !! "url" = Some ("https://example.com/research-" +:+ pretty (i + 1)%nat)
          /\ dom entry = {["title"; "snippet"; "url"; "display_url"]})
  /\ (forall research_data w w' self self' out,
        ResearchAgent.web_search self = WebSearchTool.search_async ->
        ResearchAgent.execute_research research_data w self = (Return out, w', self') ->
        exists result sources,
          out !! "result" = Some (PDict result)
          /\ result !! "sources" = Some (PList sources)
          /\ length sources = 5%nat).
Proof.
  unfold WebSearchTool.search_async, WebSearchTool._get_simulated_results.
  split; [by rewrite length_fmap, length_seq|]. split.
  - intros i Hi. eexists. split.
    + rewrite list_lookup_fmap, lookup_seq_lt by done. reflexivity.
    + unfold WebSearchTool.simulated_result. split; [by simplify_map_eq|].
      rewrite !dom_insert_L, dom_empty_L. set_solver.
  - intros research_data w w' self self' out Hweb.
    unfold ResearchAgent.execute_research. rewrite Hweb.
    destruct (match ResearchAgent.model self with
              | Some (Return text) => _ | _ => _ end) as [content confidence].
    destruct (ResearchResult_dict _ _ _ _ _) as [result|e] eqn:Hres; [|done].
    destruct (MemoryBank.store_memory _ _ _ _ _) as [w1 bank].
    intros [= <- _ _].
    unfold ResearchResult_dict in Hres.
    destruct (dict_get research_data "task_id" (PStr EmptyString)); try done.
    injection Hres as <-.
    eexists _, _. split; [by simplify_map_eq|]. split; [by simplify_map_eq|].
    rewrite length_fmap, result_urls_omap.
    unfold WebSearchTool.search_async, WebSearchTool._get_simulated_results.
    reflexivity.
Qed.

End StagesMore.

(** ** The three workers under the coordinator *)

Section Workers.
Context `{PyRepr}.



Lemma research_returns_str (task_id topic : string) (w : World)
    (self : ResearchAgent.t) :
  exists out result content w' self',
    ResearchAgent.execute_research (research_input task_id topic) w self
    = (Return out, w', self')
    /\ status_is_completed out = true
    /\ out !! "result" = Some (PDict result)
    /\ result !! "content" = Some (PStr content).
Proof.
  unfold ResearchAgent.execute_research.
  replace (dict_get (research_input task_id topic) "task_id" (PStr EmptyString))
    with (PStr task_id) by (unfold research_input, dict_get; by simplify_map_eq).
  cbv beta iota zeta delta [ResearchResult_dict].
  destruct (ResearchAgent.model self) as [[text|e]|];
    destruct (MemoryBank.store_memory _ _ _ _ _) as [w1 bank];
    eexists _, _, _, _, _; (split; [reflexivity|]);
    repeat split; by simplify_map_eq.
Qed.

Lemma writing_returns_str (research_content content_type : string)
    (task_data : gmap string string) (w : World) (self : WritingAgent.t) :
  exists out text w' self',
    WritingAgent.generate_content
      (writing_input (PStr research_content) content_type task_data) w self
    = (Return out, w', self')
    /\ status_is_completed out = true
    /\ out !! "content" = Some (PStr text).
Proof.
  unfold WritingAgent.generate_content.
  replace (dict_get (writing_input (PStr research_content) content_type task_data)
             "research_content" (PStr EmptyString))
    with (PStr research_content) by (unfold writing_input, dict_get; by simplify_map_eq).
  replace (dict_get (writing_input (PStr research_content) content_type task_data)
             "content_type" (PStr "article"))
    with (PStr content_type) by (unfold writing_input, dict_get; by simplify_map_eq).
  unfold WritingAgent._generate_fallback_content, WritingAgent.excerpt_500.
  cbn [obind].
  destruct (WritingAgent.model self) as [[text|e]|];
    destruct (MemoryBank.store_memory _ _ _ _ _) as [w1 bank];
    eexists _, _, _, _; (split; [reflexivity|]);
    split; by simplify_map_eq.
Qed.

Lemma analysis_returns_str (content : string) (w : World) (self : AnalysisAgent.t) :
  exists out report w' self',
    AnalysisAgent.analyze_content (analysis_input (PStr content)) w self
    = (Return out, w', self')
    /\ out !! "analysis_report" = Some (PDict report)
    /\ report !! "sentiment"
       = Some (PDict (SentimentAnalyzerTool.analyze_sentiment content)).
Proof.
  unfold AnalysisAgent.analyze_content.
  replace (dict_get (analysis_input (PStr content)) "content" (PStr EmptyString))
    with (PStr content) by (unfold analysis_input, dict_get; by simplify_map_eq).
  destruct (MemoryBank.store_memory _ _ _ _ _) as [w1 bank].
  eexists _, _, _, _. split; [reflexivity|]. split; by simplify_map_eq.
Qed.

(** The three workers of the repository under the coordinator, for task
    data whose values are all [str], as [create_research_task] builds
    them: each stage returns, so the coordination completes. *)
Lemma coordinate_task_with_workers (task_data : gmap string string) (w : World)
    (self : CoordinatorAgent ResearchAgent.t WritingAgent.t AnalysisAgent.t) :
  let run := coordinate_task task_data w self in
  run.1 !! "status" = Some (status_val COMPLETED)
  /\ run.1 !! "timeline"
     = Some (PDict (<["research_completed" := PBool true]>
                      (<["writing_completed" := PBool true]>
                         (<["analysis_completed" := PBool true]> ∅))))
  /\ (exists text report,
        run.1 !! "content" = Some (PStr text)
        /\ run.1 !! "analysis" = Some (PDict report)
        /\ report !! "sentiment"
           = Some (PDict (SentimentAnalyzerTool.analyze_sentiment text)))
  /\ task_status (task_id_of self task_data) (cx_self run.2)
     = Some (status_val COMPLETED)
  /\ (fun call => call.1) <$> cx_calls run.2 = [RESEARCH; WRITING; ANALYSIS].
Proof.
  intros run.
  set (cx := start_ctx task_data w self).
  destruct (research_returns_str (task_id_of self task_data) (topic_of task_data)
              (cx_world cx) (research_agent (cx_self cx)))
    as (rr & research & rc & w0 & ra' & Hr & Hrs & Hres & Hrc).
  assert (Hcr : exists cx0,
            call_research (research_input (task_id_of self task_data)
                             (topic_of task_data)) cx = (Return rr, cx0)).
  { unfold call_research. cbn [execute_task ResearchAgent_Agent]. rewrite Hr. eauto. }
  destruct Hcr as [cx0 Hcr].
  destruct (writing_returns_str rc (content_type_of task_data) task_data
              (cx_world cx0) (writing_agent (cx_self cx0)))
    as (wr & text & w1 & wa' & Hw & Hws & Hcont).
  assert (Hcw : exists cx1,
            call_writing (writing_input (PStr rc) (content_type_of task_data)
                            task_data) cx0 = (Return wr, cx1)).
  { unfold call_writing. cbn [execute_task WritingAgent_Agent]. rewrite Hw. eauto. }
  destruct Hcw as [cx1 Hcw].
  destruct (analysis_returns_str text (cx_world cx1) (analysis_agent (cx_self cx1)))
    as (ar & report & w2 & aa' & Ha & Hrep & Hsent).
  assert (Hca : exists cx2,
            call_analysis (analysis_input (PStr text)) cx1 = (Return ar, cx2)).
  { unfold call_analysis. cbn [execute_task AnalysisAgent_Agent]. rewrite Ha. eauto. }
  destruct Hca as [cx2 Hca].
  destruct (pipeline_success (task_id_of self task_data) (topic_of task_data)
              (content_type_of task_data) task_data cx
              rr (PDict research) (PStr rc) cx0 wr (PStr text) cx1 ar (PDict report) cx2)
    as (Hp & Hb & Hcalls); try done.
  { unfold dict_getitem. by rewrite Hres. }
  { cbn. unfold dict_getitem. by rewrite Hrc. }
  { unfold dict_getitem. by rewrite Hcont. }
  { unfold dict_getitem. by rewrite Hrep. }
  destruct (coordinate_task_return _ _ _ _ _ Hp Hb) as (Hout & Hts & Hc & _).
  subst run. rewrite Hout, Hc, Hcalls. unfold final_result.
  split; [by simplify_map_eq|]. split; [by simplify_map_eq|].
  split; [exists text, report; repeat split; by simplify_map_eq|].
  split; [done|]. reflexivity.
Qed.

(** X24. Every request accepted by [POST /research] is brought to
    completion by the repository's three workers.  The request model has
    five [str] fields and the task id is a fresh uuid string, so the task
    data handed to [execute_research_task] hold [str] values only; then,
    whatever the state of the application and of the world and whatever
    the models do (answer, fail or be absent), the run ends with the
    registry record completed and holding the result: status completed,
    all timeline flags set, a [str] content and an analysis with the
    sentiment of that content.  The coordinator's record is completed as
    well and the three stages were each called once, in order. *)
Theorem submitted_task_always_completes (request : ResearchRequest.t) (w w1 : World)
    (app : App ResearchAgent.t WritingAgent.t AnalysisAgent.t) :
  let task_id := (create_research_task request w app).1.1 in
  let task_data := (create_research_task request w app).1.2 in
  let app1 := (create_research_task request w app).2 in
  exists app2 cx result text report,
    execute_research_task task_id task_data w1 app1 = Return (app2, cx)
    /\ registry_status task_id app2 = Some (status_val COMPLETED)
    /\ (registry app2 !! task_id ≫= fun record => record !! "result")
       = Some (PDict result)
    /\ result !! "status" = Some (status_val COMPLETED)
    /\ result !! "timeline"
       = Some (PDict (<["research_completed" := PBool true]>
                        (<["writing_completed" := PBool true]>
                           (<["analysis_completed" := PBool true]> ∅))))
    /\ result !! "content" = Some (PStr text)
    /\ result !! "analysis" = Some (PDict report)
    /\ report !! "sentiment"
       = Some (PDict (SentimentAnalyzerTool.analyze_sentiment text))
    /\ task_status task_id (cx_self cx) = Some (status_val COMPLETED)
    /\ (fun call => call.1) <$> cx_calls cx = [RESEARCH; WRITING; ANALYSIS].
Proof.
  intros task_id task_data app1.
  assert (Hrec : exists record, registry app1 !! task_id = Some record)
    by (eexists; apply lookup_insert_eq).
  destruct Hrec as [record Hrec].
  assert (Hid : task_id_of (coordinator_agent app1) task_data = task_id)
    by apply make_task_data_task_id.
  clearbody app1 task_data task_id.
  destruct (coordinate_task_with_workers task_data w1 (coordinator_agent app1))
    as (Hstatus & Htimeline & (text & report & Hcontent & Hanalysis & Hsent)
        & Hts & Hcalls).
  rewrite Hid in Hts.
  rewrite (execute_research_task_registered _ _ _ _ _ Hrec).
  destruct (coordinate_task task_data w1 (coordinator_agent app1))
    as [result cx] eqn:Hrun.
  cbn [fst snd] in Hstatus, Htimeline, Hcontent, Hanalysis, Hts, Hcalls |- *.
  eexists _, cx, result, text, report. split; [done|].
  split.
  { unfold registry_status, record_result, mark_in_progress. cbn [registry].
    rewrite !lookup_alter_eq, Hrec. simpl. rewrite lookup_insert_eq.
    unfold dict_get. by rewrite Hstatus. }
  split.
  { unfold record_result, mark_in_progress. cbn [registry].
    rewrite !lookup_alter_eq, Hrec. simpl. by simplify_map_eq. }
  done.
Qed.

End Workers.

(** ** More on the tools (src/tools/custom_tools.py) *)

Section ToolsMore.
Import SentimentAnalyzerTool.

Lemma lower_char_idemp (c : ascii) :
  PyStr.lower_char (PyStr.lower_char c) = PyStr.lower_char c.
Proof. destruct c as [[] [] [] [] [] [] [] []]; reflexivity. Qed.

Lemma lower_idemp (s : string) : PyStr.lower (PyStr.lower s) = PyStr.lower s.
Proof.
  induction s as [|c s IH]; [done|]. cbn [PyStr.lower].
  by rewrite lower_char_idemp, IH.
Qed.

Lemma lexicons_disjoint (word : string) :
  word ∈ positive_words -> word ∈ negative_words -> False.
Proof.
  unfold positive_words, negative_words.
  rewrite !elem_of_list_to_set, !elem_of_cons, !elem_of_nil.
  intros Hp Hn.
  repeat (destruct Hp as [->|Hp]; [repeat (destruct Hn as [Hn|Hn]; [discriminate|]); done|]).
  done.
Qed.

Lemma counts_le_words (words : list string) :
  (count_in positive_words words + count_in negative_words words
   <= length words)%nat.
Proof.
  unfold count_in. induction words as [|word words IH]; [done|].
  rewrite !filter_cons. cbn [length].
  destruct (decide (word ∈ positive_words)) as [Hp|Hp];
    destruct (decide (word ∈ negative_words)) as [Hn|Hn]; cbn [length]; try lia.
  destruct (lexicons_disjoint word Hp Hn).
Qed.

(** X25. The figures of [analyze_sentiment] hang together: the positive
    and the negative count never exceed the number of words analysed, the
    score lies between 0 and 1 and is a whole number of hundredths, and
    the sentiment is one of "positive", "negative" and "neutral". *)
Theorem analyze_sentiment_consistent (text : string) :
  exists (p n total : nat) (score : Q) (label : string),
    analyze_sentiment text !! "positive_words" = Some (PInt (Z.of_nat p))
    /\ analyze_sentiment text !! "negative_words" = Some (PInt (Z.of_nat n))
    /\ analyze_sentiment text !! "total_words_analyzed" = Some (PInt (Z.of_nat total))
    /\ analyze_sentiment text !! "score" = Some (PFloat score)
    /\ analyze_sentiment text !! "sentiment" = Some (PStr label)
    /\ total = length (PyStr.split (PyStr.lower text))
    /\ (p + n <= total)%nat
    /\ (0 <= score <= 1)%Q
    /\ (exists k : Z, (0 <= k <= 100)%Z /\ (score == k # 100)%Q)
    /\ (label = "positive" \/ label = "negative" \/ label = "neutral").
Proof.
  unfold analyze_sentiment.
  set (words := PyStr.split (PyStr.lower text)).
  set (p := count_in positive_words words).
  set (n := count_in negative_words words).
  pose proof (counts_le_words words) as Hle. fold p n in Hle.
  assert (Hscore : forall x : Q, (0 <= x <= 1)%Q ->
            (0 <= PyFloat.round2 x <= 1)%Q
            /\ exists k : Z, (0 <= k <= 100)%Z /\ (PyFloat.round2 x == k # 100)%Q).
  { intros x Hx. destruct (round2_hundredths x Hx) as (k & Hk & Heq).
    split; [|by exists k]. rewrite Heq. by apply hundredths_bounds. }
  destruct (decide ((p + n)%nat = 0%nat)) as [Hz|Hnz].
  - destruct (Hscore (1 # 2)%Q) as [Hb Hk]; [split; discriminate|].
    exists p, n, (length words), (PyFloat.round2 (1 # 2)), "neutral".
    do 5 (split; [by simplify_map_eq|]). repeat split; try done; try apply Hb; auto.
  - assert (Hr : (0 <= PyFloat.of_nat p / PyFloat.of_nat (p + n) <= 1)%Q)
      by (apply ratio_bounds; lia).
    destruct (Hscore _ Hr) as [Hb Hk].
    destruct (Qlt_le_dec (6 # 10) _) as [Hhi|Hhi];
      [|destruct (Qlt_le_dec _ (4 # 10)) as [Hlo|Hlo]];
      eexists p, n, (length words), _, _;
      do 5 (split; [by simplify_map_eq|]);
      repeat split; try done; try apply Hb; auto.
Qed.

(** X26. [analyze_sentiment] does not look at the case of the letters:
    two texts with the same lower-case form get the same analysis, and
    so do a text and its lower-case form. *)
Theorem analyze_sentiment_ignores_case (text text' : string) :
  PyStr.lower text = PyStr.lower text' ->
  analyze_sentiment text = analyze_sentiment text'
  /\ analyze_sentiment (PyStr.lower text) = analyze_sentiment text.
Proof.
  intros Heq. unfold analyze_sentiment. by rewrite lower_idemp, Heq.
Qed.

(** X27. Only the rules "structure_paragraphs" and "professional_tone"
    change anything: for a content type other than "article" and a tone
    other than "professional", [optimize_content] returns the content as
    it is, and for a content type other than "article" with the
    professional tone it does nothing but replace the three informal
    phrases. *)
Theorem optimize_content_rules (content : string) (content_type tone : pyval) :
  eq_str content_type "article" = false ->
  ContentOptimizerTool.optimize_content content content_type tone
  = if eq_str tone "professional"
    then PyStr.replace " yeah " " yes "
           (PyStr.replace " gonna " " going to "
              (PyStr.replace " kinda " " kind of " content))
    else content.
Proof.
  intros Hct. unfold ContentOptimizerTool.optimize_content,
    ContentOptimizerTool._get_optimization_rules.
  rewrite Hct.
  destruct (eq_str content_type "report"), (eq_str tone "professional") eqn:Hp,
    (eq_str tone "casual"); reflexivity.
Qed.


Lemma content_type_of_item_cases (item : gmap string string) :
  DataAnalysisTool.content_type_of_item item = "research"
  \/ DataAnalysisTool.content_type_of_item item = "news"
  \/ DataAnalysisTool.content_type_of_item item = "general".
Proof.
  unfold DataAnalysisTool.content_type_of_item.
  repeat match goal with |- context [if ?b then _ else _] => destruct b end; auto.
Qed.

(** X28. The figures of [DataAnalysisTool.analyze_content]: the item
    count is the length of the content, the quality score lies between 0
    and 1 and is 1 from a hundred words on, the content types are among
    "research", "news" and "general", and there is none exactly when the
    content is empty. *)
Theorem analyze_content_figures (content : list (gmap string string)) :
  let a := DataAnalysisTool.analyze_content content in
  DataAnalysisTool.total_items a = length content
  /\ (0 <= DataAnalysisTool.quality_score a <= 1)%Q
  /\ ((100 <= DataAnalysisTool.total_word_count a)%nat ->
        (DataAnalysisTool.quality_score a == 1)%Q)
  /\ DataAnalysisTool.content_types a ⊆ {["research"; "news"; "general"]}
  /\ (DataAnalysisTool.content_types a = ∅ <-> content = []).
Proof.
  intros a. subst a. unfold DataAnalysisTool.analyze_content.
  cbn [DataAnalysisTool.total_items DataAnalysisTool.quality_score
       DataAnalysisTool.total_word_count DataAnalysisTool.content_types].
  set (word_count := foldr Nat.add 0%nat _).
  assert (Hq : (0 <= PyFloat.of_nat word_count / 100)%Q).
  { apply Qle_shift_div_l; [reflexivity|]. rewrite Qmult_0_l.
    unfold PyFloat.of_nat. change 0%Q with (inject_Z 0). rewrite <- Zle_Qle. lia. }
  split; [done|]. split; [|split; [|split]].
  - unfold DataAnalysisTool.min_one.
    destruct (Qlt_le_dec 1 _); split; try done; discriminate.
  - intros Hw. unfold DataAnalysisTool.min_one.
    destruct (Qlt_le_dec 1 _) as [Hlt|Hle]; [reflexivity|].
    apply Qle_antisym; [done|].
    apply Qle_shift_div_l; [reflexivity|]. unfold PyFloat.of_nat.
    change (1 * 100)%Q with (inject_Z 100). rewrite <- Zle_Qle. lia.
  - unfold DataAnalysisTool._identify_content_types.
    intros t Ht. apply elem_of_list_to_set, list_elem_of_fmap in Ht as (item & -> & _).
    destruct (content_type_of_item_cases item) as [->| [->| ->]]; set_solver.
  - unfold DataAnalysisTool._identify_content_types. split.
    + destruct content as [|item rest]; [done|].
      rewrite fmap_cons, list_to_set_cons. set_solver.
    + by intros ->.
Qed.

End ToolsMore.

(** ** Further examples *)

Section MoreExamples.
Import Demo.
#[local] Existing Instance repr.

Lemma store_memory_other_key_run :
  (MemoryBank.retrieve_memory "old"
     (MemoryBank.store_memory "content_article" (PStr "text") None world_later
        aged_bank).1
     (MemoryBank.store_memory "content_article" (PStr "text") None world_later
        aged_bank).2).1
  = (MemoryBank.retrieve_memory "old" world_later aged_bank).1
  /\ is_Some (MemoryBank.retrieve_memory "old" world_later aged_bank).1.
Proof.
  split; [|by eexists].
  apply (store_memory_other_key "content_article" "old").
  discriminate.
Defined.

Lemma rejected_store_run :
  dumps payload_with_set = None
  /\ (MemoryBank.store_memory "research_AI" payload_with_set None world_redis
        MemoryBank.init).1 = world_redis.
Proof.
  split; [reflexivity|].
  apply (rejected_store_changes_nothing "research_AI" payload_with_set None
           world_redis MemoryBank.init); reflexivity.
Defined.

Lemma clear_old_memories_run :
  exists bank,
    MemoryBank.clear_old_memories 3600 world_later aged_bank = Some bank
    /\ MemoryBank.fallback_storage bank !! MemoryBank.memory_key "old" = None
    /\ MemoryBank.fallback_storage bank !! MemoryBank.memory_key "fresh"
       = MemoryBank.fallback_storage aged_bank !! MemoryBank.memory_key "fresh".
Proof.
  destruct (clear_old_memories_spec 3600 world_later aged_bank)
    as (bank & Hrun & Hlookup & _).
  { apply map_Forall_insert_2; [by eexists|].
    apply map_Forall_insert_2; [by eexists|]. apply map_Forall_empty. }
  exists bank. split; [exact Hrun|].
  assert (Hc : MemoryBank.redis_client bank = false).
  { vm_compute in Hrun. injection Hrun as <-. reflexivity. }
  rewrite !Hlookup, Hc. split; reflexivity.
Defined.

Lemma stored_entries_have_timestamps_run :
  map_Forall (fun _ value => is_Some (MemoryBank.timestamp_of value))
    (MemoryBank.fallback_storage
       (MemoryBank.store_memory "research_AI" (PStr "text") None world
          MemoryBank.init).2)
  /\ MemoryBank.timestamp_of
       (PDict (MemoryBank.memory_data world (PStr "text") None))
     = Some (loop_time world).
Proof.
  apply (stored_entries_have_timestamps "research_AI" (PStr "text") None world
           MemoryBank.init).
  apply map_Forall_empty.
Defined.

Lemma total_memories_after_store_run :
  (MemoryBank.total_memories
     (MemoryBank.store_memory "old" (PStr "again") None world_later aged_bank).1
     (MemoryBank.store_memory "old" (PStr "again") None world_later aged_bank).2).1
  = 2%nat
  /\ (MemoryBank.total_memories
        (MemoryBank.store_memory "third" (PStr "z") None world_later aged_bank).1
        (MemoryBank.store_memory "third" (PStr "z") None world_later aged_bank).2).1
     = 3%nat.
Proof.
  split.
  - rewrite (total_memories_after_store "old" (PStr "again") None world_later
               aged_bank eq_refl eq_refl).
    reflexivity.
  - rewrite (total_memories_after_store "third" (PStr "z") None world_later
               aged_bank eq_refl eq_refl).
    reflexivity.
Defined.

Lemma coordinate_task_success_run :
  (coordinate_task task_data world
     (coordinator research_ok writing_ok analysis_ok)).1 !! "content"
  = Some (PStr "text")
  /\ (fun call => call.1)
       <$> cx_calls (coordinate_task task_data world
                       (coordinator research_ok writing_ok analysis_ok)).2
     = [RESEARCH; WRITING; ANALYSIS].
Proof.
  pose proof (coordinate_task_success task_data world
                (coordinator research_ok writing_ok analysis_ok)
                _ (PDict (<["content" := PStr "notes"]> ∅)) (PStr "notes") _
                _ (PStr "text") _ _ (PDict ∅) _
                eq_refl eq_refl eq_refl eq_refl eq_refl eq_refl eq_refl
                eq_refl eq_refl) as H.
  cbv zeta in H. destruct H as (_ & _ & _ & Hcontent & _ & _ & _ & Hcalls).
  split; [exact Hcontent|]. rewrite Hcalls. reflexivity.
Defined.

Lemma research_without_result_run :
  (coordinate_task task_data world
     (coordinator research_without_result writing_ok analysis_ok)).1 !! "error"
  = Some (PStr "'result'")
  /\ (fun call => call.1)
       <$> cx_calls (coordinate_task task_data world
                       (coordinator research_without_result writing_ok
                          analysis_ok)).2
     = [RESEARCH].
Proof.
  pose proof (research_without_result_fails task_data world
                (coordinator research_without_result writing_ok analysis_ok)
                (<["status" := PStr "completed"]> ∅) _
                eq_refl eq_refl eq_refl) as H.
  cbv zeta in H. destruct H as (_ & Herr & _ & Hcalls).
  split; [exact Herr|]. rewrite Hcalls. reflexivity.
Defined.

Lemma all_terminal_run :
  size (active_tasks finished_coordinator) = 1%nat
  /\ (count_status COMPLETED
        (cx_self (coordinate_task (<["task_id" := "second_task"]> task_data) world
                    finished_coordinator).2)
      + count_status FAILED
          (cx_self (coordinate_task (<["task_id" := "second_task"]> task_data) world
                      finished_coordinator).2)
      = size (active_tasks
                (cx_self (coordinate_task (<["task_id" := "second_task"]> task_data)
                            world finished_coordinator).2)))%nat.
Proof.
  split; [reflexivity|].
  apply (coordinate_task_keeps_all_terminal
           (<["task_id" := "second_task"]> task_data) world finished_coordinator).
  apply (coordinate_task_keeps_all_terminal task_data world
           (coordinator research_ok writing_ok analysis_ok)).
  intros task_id record Hrecord. discriminate Hrecord.
Defined.

Lemma stage_product_run :
  exists envelope,
    (MemoryBank.retrieve_memory "research_AI" research_run.1.2
       (ResearchAgent.memory_bank research_run.2)).1 = Some (PDict envelope)
    /\ envelope !! "data" = returned ∅ research_run.1.1 !! "result".
Proof.
  destruct (stage_product_is_remembered research_input_ai world
              research_run.1.2 (returned ∅ research_run.1.1) eq_refl)
    as (Hresearch & _ & _).
  apply (Hresearch research_agent_found research_run.2); reflexivity.
Defined.

Lemma search_async_sources_run :
  exists result sources,
    returned ∅ research_run_simulated.1.1 !! "result" = Some (PDict result)
    /\ result !! "sources" = Some (PList sources)
    /\ length sources = 5%nat.
Proof.
  destruct (search_async_entries (PStr "AI") 5) as (_ & _ & Hsources).
  apply (Hsources research_input_ai world research_run_simulated.1.2
           research_agent research_run_simulated.2); reflexivity.
Defined.

Lemma analyze_sentiment_ignores_case_run :
  PyStr.lower "A GREAT and Amazing product"
  = PyStr.lower "a great AND amazing Product"
  /\ SentimentAnalyzerTool.analyze_sentiment "A GREAT and Amazing product"
     = SentimentAnalyzerTool.analyze_sentiment "a great AND amazing Product".
Proof.
  assert (Hlower : PyStr.lower "A GREAT and Amazing product"
                   = PyStr.lower "a great AND amazing Product")
    by (vm_compute; reflexivity).
  split; [exact Hlower|].
  exact (proj1 (analyze_sentiment_ignores_case _ _ Hlower)).
Defined.

Lemma optimize_content_rules_run :
  ContentOptimizerTool.optimize_content "gonna win" (PStr "summary")
    (PStr "professional")
  = "gonna win"
  /\ ContentOptimizerTool.optimize_content "we are gonna win, yeah!"
       (PStr "summary") (PStr "professional")
     = "we are going to win, yeah!".
Proof.
  split.
  - rewrite (optimize_content_rules "gonna win" (PStr "summary")
               (PStr "professional") eq_refl).
    vm_compute. reflexivity.
  - rewrite (optimize_content_rules "we are gonna win, yeah!" (PStr "summary")
               (PStr "professional") eq_refl).
    vm_compute. reflexivity.
Defined.

End MoreExamples.
